(** * Convergence analysis for Well-Tempered Metadynamics

    A shallow embedding of [scripts/analyze_convergence.py]: the PLUMED
    record loader, the bias-decay analyzer, the time-resolved DeltaG tracker,
    block averaging, the local-minimum detector and the convergence report.

    Python floats and numpy's float64 are IEEE 754 binary64 numbers; they are
    embedded as Rocq's primitive floats, which are the same binary64 numbers
    with the same rounding.  Python integers are [Z], list and array
    positions are [nat] once an index has been normalised. *)

From Stdlib Require Import String Ascii DecimalString List ZArith Lia Bool Arith.
From Stdlib Require Import Floats Numbers.Cyclic.Int63.Uint63.
Import ListNotations.

Set Warnings "-inexact-float".

Open Scope string_scope.
Open Scope list_scope.
Open Scope Z_scope.

(** ** Outcomes of a Python call *)

(** The exceptions the analysed code can meet.  All three derive from
    Python's [Exception]. *)
Inductive exn : Set :=
| ValueError
| IndexError
| ZeroDivisionError.

(** A call returns a value, raises an [Exception], or leaves through
    [sys.exit(code)].  [SystemExit] derives from [BaseException] and not from
    [Exception], so it has a constructor of its own; [stderr] is the text
    printed to the standard error stream right before the exit. *)
Inductive result (A : Type) : Type :=
| Ok (a : A)
| Raise (e : exn)
| SysExit (code : Z) (stderr : string).

Arguments Ok {A} a.
Arguments Raise {A} e.
Arguments SysExit {A} code stderr.

Definition bind {A B : Type} (r : result A) (k : A -> result B) : result B :=
  match r with
  | Ok a => k a
  | Raise e => Raise e
  | SysExit c m => SysExit c m
  end.

Notation "x <- c ;; k" := (bind c (fun x => k))
  (at level 61, c at next level, right associativity).

(** [try: body / except Exception: handler] *)
Definition try_except_Exception {A : Type} (body handler : result A) : result A :=
  match body with
  | Raise _ => handler
  | _ => body
  end.

(** [try: body / except SystemExit: handler] *)
Definition try_except_SystemExit {A : Type} (body handler : result A) : result A :=
  match body with
  | SysExit _ _ => handler
  | _ => body
  end.

(** ** Python sequences *)

(** Normalisation of a slice bound against a sequence of length [n]:
    a negative bound counts from the end, and every bound is clamped. *)
Definition slice_bound (n : nat) (k : Z) : nat :=
  if k <? 0 then Z.to_nat (Z.max 0 (k + Z.of_nat n))
  else Z.to_nat (Z.min k (Z.of_nat n)).

(** [l[start:stop]] *)
Definition py_slice {A : Type} (l : list A) (start stop : Z) : list A :=
  let a := slice_bound (length l) start in
  let b := slice_bound (length l) stop in
  firstn (b - a) (skipn a l).

(** Normalisation of an index: [IndexError] outside [-n .. n-1]. *)
Definition py_index (n : nat) (k : Z) : result nat :=
  if (0 <=? k) && (k <? Z.of_nat n) then Ok (Z.to_nat k)
  else if (- Z.of_nat n <=? k) && (k <? 0) then Ok (Z.to_nat (k + Z.of_nat n))
  else Raise IndexError.

(** [range(n)] *)
Definition py_range (n : Z) : list Z := map Z.of_nat (seq 0 (Z.to_nat n)).

(** [range(a, b)] *)
Definition py_range2 (a b : Z) : list Z :=
  map (fun i => a + Z.of_nat i) (seq 0 (Z.to_nat (b - a))).

(** ** Floats and numpy *)

(** [float(z)] for a Python integer below 2^63 in absolute value. *)
Definition float_of_Z (z : Z) : float :=
  if z <? 0 then PrimFloat.opp (PrimFloat.of_uint63 (Uint63.of_Z (- z)))
  else PrimFloat.of_uint63 (Uint63.of_Z z).

Definition float_of_nat (n : nat) : float := float_of_Z (Z.of_nat n).

(** [a[k]] on a one-dimensional array *)
Definition getitem (a : list float) (k : Z) : result float :=
  i <- py_index (length a) k ;; Ok (nth i a PrimFloat.nan).

(** [np.sum]: the elements are added from left to right.  (For arrays of
    eight or more elements numpy groups the additions pairwise, which can
    change the last bits of the sum; no statement below depends on the
    grouping.) *)
Definition np_sum (a : list float) : float :=
  match a with
  | [] => PrimFloat.zero
  | x :: r => fold_left PrimFloat.add r x
  end.

(** [np.mean]: the sum divided by the element count; [nan] (with a
    RuntimeWarning, no exception) on an empty array. *)
Definition np_mean (a : list float) : float :=
  PrimFloat.div (np_sum a) (float_of_nat (length a)).

(** [np.std] with its default [ddof=0]: the square root of the mean of the
    squared deviations from the mean. *)
Definition np_std (a : list float) : float :=
  let m := np_mean a in
  let x := map (fun v => PrimFloat.sub v m) a in
  PrimFloat.sqrt (PrimFloat.div (np_sum (map (fun d => PrimFloat.mul d d) x))
                                (float_of_nat (length a))).

(** [np.sqrt] of a Python integer *)
Definition np_sqrt_int (n : Z) : float := PrimFloat.sqrt (float_of_Z n).

(** A step of the reductions [np.minimum.reduce] and [np.maximum.reduce]:
    the value kept so far stays when it is not above (not below) the next
    element, or when it is [nan]. *)
Definition np_minimum (a b : float) : float :=
  if PrimFloat.leb a b || PrimFloat.is_nan a then a else b.

Definition np_maximum (a b : float) : float :=
  if PrimFloat.leb b a || PrimFloat.is_nan a then a else b.

(** [np.min] and [np.max]: [ValueError] on an empty array. *)
Definition np_min (a : list float) : result float :=
  match a with
  | [] => Raise ValueError
  | x :: r => Ok (fold_left np_minimum r x)
  end.

Definition np_max (a : list float) : result float :=
  match a with
  | [] => Raise ValueError
  | x :: r => Ok (fold_left np_maximum r x)
  end.

(** A two-dimensional array, row by row. *)
Definition ndarray := list (list float).

Definition rectangular (data : list (list float)) : bool :=
  match data with
  | [] => true
  | r :: rest => forallb (fun r' => Nat.eqb (length r') (length r)) rest
  end.

(** [np.array(data)] on a list of lists of floats: rows of differing lengths
    are refused with [ValueError] (inhomogeneous shape; numpy 1.24 and
    later). *)
Definition np_array (data : list (list float)) : result ndarray :=
  if rectangular data then Ok data else Raise ValueError.

(** [a.shape[1]] *)
Definition shape1 (a : ndarray) : nat :=
  match a with
  | [] => 0%nat
  | r :: _ => length r
  end.

(** [a[:, k]] *)
Definition column (a : ndarray) (k : Z) : result (list float) :=
  i <- py_index (shape1 a) k ;; Ok (map (fun r => nth i r PrimFloat.nan) a).

(** [a[mask]]: the rows whose mask entry is true *)
Definition select_rows (a : ndarray) (mask : list bool) : ndarray :=
  map fst (filter snd (combine a mask)).

(** [np.linspace(start, stop, num)] with [endpoint=True]. *)
Definition np_linspace (start stop : float) (num : Z) : result (list float) :=
  if num <? 0 then Raise ValueError
  else
    let div := num - 1 in
    let delta := PrimFloat.sub stop start in
    let y := map float_of_Z (py_range num) in
    let y :=
      if 0 <? div then
        let step := PrimFloat.div delta (float_of_Z div) in
        if PrimFloat.eqb step PrimFloat.zero
        then map (fun v => PrimFloat.mul (PrimFloat.div v (float_of_Z div)) delta) y
        else map (fun v => PrimFloat.mul v step) y
      else map (fun v => PrimFloat.mul v delta) y in
    let y := map (fun v => PrimFloat.add v start) y in
    Ok (if 1 <? num then removelast y ++ [stop] else y).

(** ** Python strings (ASCII text) *)

(** [str.isspace] on the ASCII range: TAB, LF, VT, FF, CR, the four
    separators 28..31 and the space. *)
Definition isspace (c : ascii) : bool :=
  let n := nat_of_ascii c in
  ((9 <=? n) && (n <=? 13) || (28 <=? n) && (n <=? 32))%nat.

Fixpoint lstrip (s : list ascii) : list ascii :=
  match s with
  | c :: r => if isspace c then lstrip r else s
  | [] => []
  end.

(** [s.strip()] *)
Definition strip (s : string) : string :=
  string_of_list_ascii
    (rev (lstrip (rev (lstrip (list_ascii_of_string s))))).

(** [s.split()]: the maximal runs of non-whitespace characters.  [cur] holds
    the run being read, reversed. *)
Fixpoint split_runs (s cur : list ascii) : list string :=
  match s with
  | [] =>
      match cur with
      | [] => []
      | _ => [string_of_list_ascii (rev cur)]
      end
  | c :: r =>
      if isspace c then
        match cur with
        | [] => split_runs r []
        | _ => string_of_list_ascii (rev cur) :: split_runs r []
        end
      else split_runs r (c :: cur)
  end.

Definition split (s : string) : list string :=
  split_runs (list_ascii_of_string s) [].

(** [s.startswith(p)] *)
Fixpoint startswith (s p : string) : bool :=
  match p, s with
  | EmptyString, _ => true
  | String _ _, EmptyString => false
  | String a p', String b s' => Ascii.eqb a b && startswith s' p'
  end.

(** [not s] for a string *)
Definition str_empty (s : string) : bool :=
  match s with
  | EmptyString => true
  | _ => false
  end.

(** ** Conversions between floats and text *)

(** The integer nearest to [m * 2^e], ties going to the even one. *)
Definition round_half_even (m : positive) (e : Z) : Z :=
  if 0 <=? e then Z.pos m * 2 ^ e
  else
    let d := 2 ^ (- e) in
    let q := Z.pos m / d in
    let r := Z.pos m mod d in
    match 2 * r ?= d with
    | Lt => q
    | Gt => q + 1
    | Eq => if Z.even q then q else q + 1
    end.

(** [str(z)] for a natural number *)
Definition decimal_digits (z : Z) : string :=
  NilZero.string_of_uint (N.to_uint (Z.to_N z)).

(** Python's [format(x, ".0f")], used to name the temporary files: the exact
    value of the float rounded to an integer, ties to even. *)
Definition format_0f (x : float) : string :=
  match Prim2SF x with
  | S754_nan => "nan"
  | S754_infinity s => if s then "-inf" else "inf"
  | S754_zero s => if s then "-0" else "0"
  | S754_finite s m e =>
      ((if s then "-" else "") ++ decimal_digits (round_half_even m e))%string
  end.

Definition digit_value (c : ascii) : option Z :=
  let n := nat_of_ascii c in
  if ((48 <=? n) && (n <=? 57))%nat then Some (Z.of_nat (n - 48)) else None.

Fixpoint digits_value (s : list ascii) (acc : Z) : option Z :=
  match s with
  | [] => Some acc
  | c :: r =>
      match digit_value c with
      | Some d => digits_value r (10 * acc + d)
      | None => None
      end
  end.

Fixpoint split_at_point (s : list ascii) : list ascii * list ascii :=
  match s with
  | [] => ([], [])
  | c :: r =>
      if Ascii.eqb c "."%char then ([], r)
      else let '(a, b) := split_at_point r in (c :: a, b)
  end.

(** A reader of the plain decimal numerals [[+-]digits[.digits]], used to
    run the loader on concrete files.  It is one possible value of the
    parameter [py_float] below: on these numerals, while the digits make a
    number below 2^53 and at most 22 of them follow the point, the quotient
    it computes is the float Python's [float] returns.  Python's [float]
    reads more (exponents, [inf], [nan], underscores). *)
Definition float_of_decimal (s : string) : option float :=
  let cs := list_ascii_of_string s in
  let '(negative, body) :=
    match cs with
    | c :: r =>
        if Ascii.eqb c "-"%char then (true, r)
        else if Ascii.eqb c "+"%char then (false, r)
        else (false, cs)
    | [] => (false, cs)
    end in
  let '(int_part, frac_part) := split_at_point body in
  match int_part ++ frac_part with
  | [] => None
  | ds =>
      match digits_value ds 0 with
      | None => None
      | Some m =>
          let v := PrimFloat.div (float_of_Z m)
                                 (float_of_Z (10 ^ Z.of_nat (length frac_part))) in
          Some (if negative then PrimFloat.opp v else v)
      end
  end.

(** ** Record loader: [load_plumed_file] *)

Section Analysis.

(** Python's built-in [float(token)]; [None] stands for its [ValueError]. *)
Variable py_float : string -> option float.

(** [[float(x) for x in tokens]]: the first token that fails to parse raises,
    and the whole comprehension is lost. *)
Fixpoint floats_of_tokens (tokens : list string) : option (list float) :=
  match tokens with
  | [] => Some []
  | x :: rest =>
      match py_float x with
      | None => None
      | Some v =>
          match floats_of_tokens rest with
          | None => None
          | Some vs => Some (v :: vs)
          end
      end
  end.

(** The body of [for line in f]: [data] is the list built so far. *)
Fixpoint read_lines (comment : string) (f : list string)
         (data : list (list float)) : list (list float) :=
  match f with
  | [] => data
  | line :: rest =>
      let line := strip line in
      if str_empty line || startswith line comment || startswith line "@"
      then read_lines comment rest data
      else
        match floats_of_tokens (split line) with
        | Some values => read_lines comment rest (data ++ [values])
        | None => read_lines comment rest data
        end
  end.

Definition no_data_message (filepath : string) : string :=
  ("ERROR: No se encontraron datos en " ++ filepath)%string.

(** [load_plumed_file(filepath, comment)], where [f] holds the lines of the
    opened file. *)
Definition load_plumed_file (filepath comment : string) (f : list string)
  : result ndarray :=
  match read_lines comment f [] with
  | [] => SysExit 1 (no_data_message filepath)
  | data => np_array data
  end.

(** The default value of the [comment] argument. *)
Definition hash : string := "#".

(** ** Bias-decay analyzer: [analyze_hills_convergence] *)

Record hills_convergence : Type := {
  time : list float;
  heights : list float;
  n_gaussians : Z;
  h_initial : float;
  h_final : float;
  h_ratio : float;
  total_time_ps : float
}.

(** The warning printed when the heights are (almost) constant; it changes
    nothing in the returned statistics. *)
Definition constant_heights_warning (heights : list float) : bool :=
  PrimFloat.ltb (np_std heights) 1e-6%float.

(** The analyzer on the loaded table.  The integer [0] of the three [else 0]
    branches is the float zero here. *)
Definition analyze_table (hills : ndarray) : result hills_convergence :=
  time <- column hills 0 ;;
  let n_cols := Z.of_nat (shape1 hills) in
  let height_col := n_cols - 2 in
  heights <- column hills height_col ;;
  let n_gaussians := Z.of_nat (length heights) in
  h_initial <- (if 0 <? n_gaussians then getitem heights 0
                else Ok PrimFloat.zero) ;;
  h_final <- (if 0 <? n_gaussians then getitem heights (-1)
              else Ok PrimFloat.zero) ;;
  let h_ratio := if PrimFloat.ltb PrimFloat.zero h_initial
                 then PrimFloat.div h_final h_initial
                 else PrimFloat.zero in
  total <- (if 0 <? n_gaussians then getitem time (-1)
            else Ok PrimFloat.zero) ;;
  Ok {| time := time;
        heights := heights;
        n_gaussians := n_gaussians;
        h_initial := h_initial;
        h_final := h_final;
        h_ratio := h_ratio;
        total_time_ps := total |}.

Definition analyze_hills_convergence (hills_path : string)
           (hills_file : list string) : result hills_convergence :=
  hills <- load_plumed_file hills_path hash hills_file ;;
  analyze_table hills.

(** ** Statistical aggregator: [block_averaging] *)

(** One turn of [for i in range(n_blocks)]. *)
Definition block_step (data : list float) (block_size : Z)
           (block_means : list float) (i : Z) : list float :=
  let start := i * block_size in
  let end_ := start + block_size in
  block_means ++ [np_mean (py_slice data start end_)].

(** [block_averaging(data, n_blocks)]; [//] by zero raises. *)
Definition block_averaging (data : list float) (n_blocks : Z)
  : result (float * float * list float) :=
  if n_blocks =? 0 then Raise ZeroDivisionError
  else
    let block_size := Z.of_nat (length data) / n_blocks in
    if block_size =? 0 then Ok (np_mean data, np_std data, [np_mean data])
    else
      let block_means :=
        fold_left (block_step data block_size) (py_range n_blocks) [] in
      let mean := np_mean block_means in
      let stderr := PrimFloat.div (np_std block_means) (np_sqrt_int n_blocks) in
      Ok (mean, stderr, block_means).

(** ** Local-minimum detector: [find_fes_minima] *)

Record minima_set : Type := {
  cv : list float;
  energies : list float;
  deltaG_pairs : list (Z * Z * float);
  n_minima : Z
}.

(** [data.take(k, mode='clip')] *)
Definition take_clip (data : list float) (k : Z) : float :=
  nth (Z.to_nat (Z.max 0 (Z.min k (Z.of_nat (length data) - 1))))
      data PrimFloat.nan.

(** [scipy.signal.argrelmin(data, order)[0]]: the positions whose value is
    strictly below the values [shift] places to the right and to the left,
    for every shift from 1 to [order], positions beyond an end being
    clipped to that end. *)
Definition argrelmin (data : list float) (order : Z) : list Z :=
  filter
    (fun i =>
       forallb
         (fun shift =>
            PrimFloat.ltb (take_clip data i) (take_clip data (i + shift))
            && PrimFloat.ltb (take_clip data i) (take_clip data (i - shift)))
         (py_range2 1 (order + 1)))
    (py_range (Z.of_nat (length data))).

(** A list comprehension with a condition that may raise. *)
Fixpoint filter_result (p : Z -> result bool) (l : list Z) : result (list Z) :=
  match l with
  | [] => Ok []
  | i :: rest =>
      b <- p i ;;
      keep <- filter_result p rest ;;
      Ok (if b then i :: keep else keep)
  end.

(** The comprehension used when scipy cannot be imported. *)
Definition window_minima (fes_vals : list float) (window : Z) : result (list Z) :=
  filter_result
    (fun i =>
       v <- getitem fes_vals i ;;
       m <- np_min (py_slice fes_vals (Z.max 0 (i - window)) (i + window + 1)) ;;
       Ok (PrimFloat.eqb v m))
    (py_range2 window (Z.of_nat (length fes_vals) - window)).

Definition local_minima (scipy : bool) (fes_vals : list float) (window : Z)
  : result (list Z) :=
  if scipy then Ok (argrelmin fes_vals window)
  else window_minima fes_vals window.

(** [for idx in local_min_idx[1:]]: [filtered] is the list retained so far,
    never empty. *)
Fixpoint filter_loop (fes_vals : list float) (energy_window_kj : float)
         (idxs : list Z) (filtered : list Z) : result (list Z) :=
  match idxs with
  | [] => Ok filtered
  | idx :: rest =>
      top <- np_max (py_slice fes_vals (last filtered 0) (idx + 1)) ;;
      v <- getitem fes_vals idx ;;
      let barrier := PrimFloat.sub top v in
      if PrimFloat.leb energy_window_kj barrier
      then filter_loop fes_vals energy_window_kj rest (filtered ++ [idx])
      else filter_loop fes_vals energy_window_kj rest filtered
  end.

(** [a[filtered]] *)
Fixpoint take_indices (a : list float) (idxs : list Z) : result (list float) :=
  match idxs with
  | [] => Ok []
  | i :: rest =>
      v <- getitem a i ;;
      vs <- take_indices a rest ;;
      Ok (v :: vs)
  end.

(** The pairs [(i, j, min_e[j] - min_e[i])] for [i < j]. *)
Definition energy_pairs (min_e : list float) : list (Z * Z * float) :=
  let n := Z.of_nat (length min_e) in
  flat_map
    (fun i =>
       map (fun j =>
              (i, j,
               PrimFloat.sub (nth (Z.to_nat j) min_e PrimFloat.nan)
                             (nth (Z.to_nat i) min_e PrimFloat.nan)))
           (py_range2 (i + 1) n))
    (py_range n).

(** [data[:, 1] - np.min(data[:, 1])] *)
Definition renormalized (data : ndarray) : result (list float) :=
  col <- column data 1 ;;
  m <- np_min col ;;
  Ok (map (fun v => PrimFloat.sub v m) col).

(** [max(3, len(fes_vals) // 50)] *)
Definition half_width (fes_vals : list float) : Z :=
  Z.max 3 (Z.of_nat (length fes_vals) / 50).

(** [find_fes_minima(fes_file, energy_window_kj)].  [fes_file] is [None]
    when the path does not exist; [scipy] tells whether scipy can be
    imported.  [None] in the result is Python's [None].  A loaded table
    always has two dimensions, so [data.ndim < 2] is never true. *)
Definition find_fes_minima (scipy : bool) (fes_path : string)
           (fes_file : option (list string)) (energy_window_kj : float)
  : result (option minima_set) :=
  match fes_file with
  | None => Ok None
  | Some f =>
      loaded <- try_except_SystemExit
                  (data <- load_plumed_file fes_path hash f ;; Ok (Some data))
                  (Ok None) ;;
      match loaded with
      | None => Ok None
      | Some data =>
          if (shape1 data <? 2)%nat then Ok None
          else
            cv_vals <- column data 0 ;;
            fes_vals <- renormalized data ;;
            let window := half_width fes_vals in
            local_min_idx <- local_minima scipy fes_vals window ;;
            match local_min_idx with
            | [] => Ok None
            | first :: rest =>
                filtered <- filter_loop fes_vals energy_window_kj rest [first] ;;
                min_cv <- take_indices cv_vals filtered ;;
                min_e <- take_indices fes_vals filtered ;;
                Ok (Some {| cv := min_cv;
                            energies := min_e;
                            deltaG_pairs := energy_pairs min_e;
                            n_minima := Z.of_nat (length filtered) |})
            end
      end
  end.

(** ** Time-resolved DeltaG tracker: [compute_deltaG_vs_time] *)

(** The command-line arguments the analysis reads. *)
Record cli_args : Type := {
  temp : float;
  biasfactor : float;
  kt : float
}.

(** The external program, [plumed sum_hills --hills temp_hills --outfile
    temp_fes --mintozero [--kt kt]], run on the bias records written to
    [temp_hills]: it gives the exit status of the process and the lines of
    [temp_fes] afterwards, [None] when that path does not exist. *)
Variable plumed_sum_hills : ndarray -> option float -> Z * option (list string).

Record deltaG_result : Type := {
  times : list float;
  deltaG : list float;
  minima : option minima_set
}.

Definition temp_fes_path (t_block : float) : string :=
  ("/tmp/fes_block_" ++ format_0f t_block ++ ".dat")%string.

(** [--kt] is passed when [args.kt] is truthy, that is, not zero. *)
Definition kt_option (args : cli_args) : option float :=
  if PrimFloat.eqb (kt args) PrimFloat.zero then None else Some (kt args).

(** One turn of [for t_block in block_times]; [deltaG_values] is the list
    appended to.  The removal of the temporary files at the end of the turn
    leaves the list as it is. *)
Definition window_step (hills_path : string) (hills_file : list string)
           (args : cli_args) (deltaG_values : list (float * float))
           (t_block : float) : result (list (float * float)) :=
  hills <- load_plumed_file hills_path hash hills_file ;;
  hills_time <- column hills 0 ;;
  let mask := map (fun t => PrimFloat.leb t t_block) hills_time in
  if negb (existsb (fun b => b) mask) then Ok deltaG_values
  else
    let hills_block := select_rows hills mask in
    let '(returncode, temp_fes) := plumed_sum_hills hills_block (kt_option args) in
    match temp_fes with
    | Some fes_lines =>
        if returncode =? 0 then
          try_except_Exception
            (fes <- load_plumed_file (temp_fes_path t_block) hash fes_lines ;;
             fes_values <- column fes (-1) ;;
             top <- np_max fes_values ;;
             bottom <- np_min fes_values ;;
             let delta_g := PrimFloat.sub top bottom in
             Ok (deltaG_values ++ [(t_block, delta_g)]))
            (Ok deltaG_values)
        else Ok deltaG_values
    | None => Ok deltaG_values
    end.

(** The loop over the window bounds: an exit or an exception that leaves a
    turn leaves the loop. *)
Fixpoint window_loop (hills_path : string) (hills_file : list string)
         (args : cli_args) (block_times : list float)
         (deltaG_values : list (float * float)) : result (list (float * float)) :=
  match block_times with
  | [] => Ok deltaG_values
  | t_block :: rest =>
      next <- window_step hills_path hills_file args deltaG_values t_block ;;
      window_loop hills_path hills_file args rest next
  end.

Definition compute_deltaG_vs_time (colvar_path : string)
           (colvar_file : list string) (hills_path : string)
           (hills_file : list string) (args : cli_args) (n_blocks : Z)
  : result deltaG_result :=
  colvar <- load_plumed_file colvar_path hash colvar_file ;;
  time <- column colvar 0 ;;
  total_time <- getitem time (-1) ;;
  block_times <- np_linspace (PrimFloat.div total_time (float_of_Z n_blocks))
                             total_time n_blocks ;;
  deltaG_values <- window_loop hills_path hills_file args block_times [] ;;
  Ok {| times := map fst deltaG_values;
        deltaG := map snd deltaG_values;
        minima := None |}.

(** ** Convergence report: [save_convergence_report] *)

(** A formatted string, piece by piece: literal text and replacement fields
    with their format specification. *)
Inductive piece : Type :=
| Lit (s : string)
| Fmt (spec : string) (x : float)
| Int (n : Z).

(** ["=" * n] *)
Fixpoint repeat_eq (n : nat) : string :=
  match n with
  | O => EmptyString
  | S k => String "="%char (repeat_eq k)
  end.

Definition stable_line : list piece :=
  [Lit "  OK DeltaG estable (variacion < 2 kJ/mol)
"].

Definition unstable_line : list piece :=
  [Lit "  WARN DeltaG inestable (variacion >= 2 kJ/mol)
"].

(** The writes of [if deltaG_data['deltaG']: ...]. *)
Definition deltaG_section (spans : list float) : list (list piece) :=
  match spans with
  | [] => []
  | _ =>
      [[Lit "
  DeltaG (ultimo bloque): "; Fmt ".2f" (last spans PrimFloat.nan);
        Lit " kJ/mol
"]]
      ++ (if (3 <? length spans)%nat then
            let last_3 := py_slice spans (-3) (Z.of_nat (length spans)) in
            let variation := np_std last_3 in
            [[Lit "  Variacion ultimos 3 bloques: +/-"; Fmt ".2f" variation;
              Lit " kJ/mol
"]]
            ++ (if PrimFloat.ltb variation 2%float
                then [stable_line]
                else [unstable_line])
          else [])
  end.

(** The writes of the evaluation of the height ratio. *)
Definition verdict_section (ratio : float) : list (list piece) :=
  if PrimFloat.ltb ratio 0.01%float then
    [[Lit "  ✓ CONVERGIDO: Gaussianas prácticamente nulas
"];
     [Lit "    El FES está bien definido.
"]]
  else if PrimFloat.ltb ratio 0.1%float then
    [[Lit "  ~ PARCIALMENTE CONVERGIDO: Gaussianas aún apreciables
"];
     [Lit "    Considere extender la simulación.
"]]
  else
    [[Lit "  ✗ NO CONVERGIDO: Gaussianas aún significativas
"];
     [Lit "    Se requiere más tiempo de simulación.
"]].

(** The writes of [if minima: ...]; a dictionary with its four keys is
    always truthy. *)
Definition minima_section (found : option minima_set) : list (list piece) :=
  match found with
  | None => []
  | Some m =>
      [[Lit "
MINIMOS LOCALES ("; Int (n_minima m); Lit " detectados):
"]]
      ++ map (fun '(k, (cv_v, e_v)) =>
                [Lit "  Estado "; Int (Z.of_nat k + 1); Lit ": CV=";
                 Fmt ".4f" cv_v; Lit "  E="; Fmt ".2f" e_v; Lit " kJ/mol
"])
             (combine (seq 0 (length (cv m))) (combine (cv m) (energies m)))
      ++ (match deltaG_pairs m with
          | [] => []
          | pairs =>
              [[Lit "  DeltaG entre estados:
"]]
              ++ map (fun '(i, j, dG) =>
                        [Lit "    Estado "; Int (i + 1); Lit " -> Estado ";
                         Int (j + 1); Lit ": "; Fmt "+.2f" dG; Lit " kJ/mol
"])
                     pairs
          end)
  end.

(** The sequence of [f.write] calls of [save_convergence_report]. *)
Definition save_convergence_report (hills_conv : hills_convergence)
           (deltaG_data : deltaG_result) (args : cli_args) : list (list piece) :=
  [[Lit (repeat_eq 60 ++ "
")];
   [Lit "REPORTE DE CONVERGENCIA — Well-Tempered Metadynamics
"];
   [Lit (repeat_eq 60 ++ "

")];
   [Lit "PARÁMETROS DE SIMULACIÓN:
"];
   [Lit "  Temperatura:  "; Fmt "" (temp args); Lit " K
"];
   [Lit "  Biasfactor:   "; Fmt "" (biasfactor args); Lit "
"];
   [Lit "  kT:           "; Fmt ".4f" (kt args); Lit " kJ/mol
"];
   [Lit "  ΔT:           ";
    Fmt ".1f" (PrimFloat.mul (temp args)
                 (PrimFloat.sub (biasfactor args) 1%float)); Lit " K
"];
   [Lit "  T_eff:        ";
    Fmt ".1f" (PrimFloat.mul (temp args) (biasfactor args)); Lit " K

"];
   [Lit "ANÁLISIS DE GAUSSIANAS:
"];
   [Lit "  Total depositadas:  "; Int (n_gaussians hills_conv); Lit "
"];
   [Lit "  Altura inicial:     "; Fmt ".4f" (h_initial hills_conv);
    Lit " kJ/mol
"];
   [Lit "  Altura final:       "; Fmt ".4f" (h_final hills_conv);
    Lit " kJ/mol
"];
   [Lit "  Ratio h_f/h_i:      "; Fmt ".4f" (h_ratio hills_conv); Lit "
"];
   [Lit "  Tiempo total:       "; Fmt ".1f" (total_time_ps hills_conv);
    Lit " ps ("; Fmt ".2f" (PrimFloat.div (total_time_ps hills_conv) 1000%float);
    Lit " ns)

"];
   [Lit "EVALUACIÓN DE CONVERGENCIA:
"]]
  ++ verdict_section (h_ratio hills_conv)
  ++ deltaG_section (deltaG deltaG_data)
  ++ minima_section (minima deltaG_data)
  ++ [[Lit ("
" ++ repeat_eq 60 ++ "
")]].

(** ** The vocabulary of the statements *)

(** A line that is neither empty after trimming, nor a comment, nor an [@]
    metadata line. *)
Definition data_line (comment line : string) : bool :=
  negb (str_empty (strip line)
        || startswith (strip line) comment
        || startswith (strip line) "@").

Definition parses (x : string) : bool :=
  match py_float x with
  | Some _ => true
  | None => false
  end.

(** Every whitespace-separated token of the line parses as a float. *)
Definition numeric_line (line : string) : bool :=
  forallb parses (split (strip line)).

(** The non-comment, non-metadata, fully numeric lines of a file. *)
Definition parseable_lines (comment : string) (f : list string) : list string :=
  filter (fun line => data_line comment line && numeric_line line) f.

Definition token_count (line : string) : nat := length (split (strip line)).

(** All lines carry as many tokens as the first one. *)
Definition same_token_count (ls : list string) : bool :=
  match ls with
  | [] => true
  | l :: rest => forallb (fun l' => Nat.eqb (token_count l') (token_count l)) rest
  end.

Definition row_of_line (line : string) : list float :=
  match floats_of_tokens (split (strip line)) with
  | Some values => values
  | None => []
  end.

(** The sample standard deviation in the usual sense of the term (Python's
    [statistics.stdev], numpy's [ddof=1]): the squared deviations are
    divided by [n - 1], not by [n]. *)
Definition sample_std (a : list float) : float :=
  let m := np_mean a in
  let x := map (fun v => PrimFloat.sub v m) a in
  PrimFloat.sqrt (PrimFloat.div (np_sum (map (fun d => PrimFloat.mul d d) x))
                                (float_of_Z (Z.of_nat (length a) - 1))).

(** The [i]-th contiguous run of [size] elements of a series. *)
Definition block_run (data : list float) (size i : nat) : list float :=
  firstn size (skipn (i * size) data).

(** The means of the first [count] runs of [size] elements. *)
Definition run_means (data : list float) (size count : nat) : list float :=
  map (fun i => np_mean (block_run data size i)) (seq 0 count).

Definition energy_at (fes : list float) (i : nat) : float :=
  nth i fes PrimFloat.nan.

(** The largest energy of the profile from position [a] to position [b],
    both included. *)
Definition max_between (fes : list float) (a b : nat) : float :=
  match firstn (b + 1 - a) (skipn a fes) with
  | [] => PrimFloat.nan
  | x :: r => fold_left np_maximum r x
  end.

(** The barrier the code compares with the threshold: the largest energy
    between the anchor and the candidate, less the candidate's own energy. *)
Definition barrier (fes : list float) (anchor idx : nat) : float :=
  PrimFloat.sub (max_between fes anchor idx) (energy_at fes idx).

(** The candidates retained after [anchor], the last retained minimum. *)
Fixpoint retained_after (fes : list float) (threshold : float) (anchor : nat)
         (candidates : list nat) : list nat :=
  match candidates with
  | [] => []
  | idx :: rest =>
      if PrimFloat.leb threshold (barrier fes anchor idx)
      then idx :: retained_after fes threshold idx rest
      else retained_after fes threshold anchor rest
  end.

(** The rule as the specification words it: the largest energy between the
    anchor and the candidate is compared with the threshold. *)
Fixpoint retained_by_peak (fes : list float) (threshold : float) (anchor : nat)
         (candidates : list nat) : list nat :=
  match candidates with
  | [] => []
  | idx :: rest =>
      if PrimFloat.leb threshold (max_between fes anchor idx)
      then idx :: retained_by_peak fes threshold idx rest
      else retained_by_peak fes threshold anchor rest
  end.

(** Positions that increase strictly, starting above [lo]. *)
Fixpoint increasing_from (lo : nat) (l : list nat) : Prop :=
  match l with
  | [] => True
  | x :: r => (lo < x)%nat /\ increasing_from x r
  end.

(** Every retained minimum is separated from the one retained before it by
    a barrier of at least the threshold. *)
Fixpoint separated (fes : list float) (threshold : float) (anchor : nat)
         (l : list nat) : Prop :=
  match l with
  | [] => True
  | x :: r =>
      PrimFloat.leb threshold (barrier fes anchor x) = true
      /\ separated fes threshold x r
  end.

(** The energy at position [m] is strictly below the energy at every other
    position of the profile. *)
Definition strict_minimum_at (fes : list float) (m : nat) : Prop :=
  forall j, (j < length fes)%nat -> j <> m ->
            PrimFloat.ltb (energy_at fes m) (energy_at fes j) = true.

(** The test of [argrelmin] at a position. *)
Definition is_relmin (data : list float) (order : Z) (i : nat) : bool :=
  forallb
    (fun shift =>
       PrimFloat.ltb (take_clip data (Z.of_nat i))
                     (take_clip data (Z.of_nat i + shift))
       && PrimFloat.ltb (take_clip data (Z.of_nat i))
                        (take_clip data (Z.of_nat i - shift)))
    (py_range2 1 (order + 1)).

(** The least energy of the [2 * w + 1] positions around [i]. *)
Definition window_min (fes : list float) (w i : nat) : float :=
  match firstn (2 * w + 1) (skipn (i - w) fes) with
  | [] => PrimFloat.nan
  | x :: r => fold_left np_minimum r x
  end.

(** The test of the comprehension at a position. *)
Definition is_window_min (fes : list float) (w i : nat) : bool :=
  PrimFloat.eqb (energy_at fes i) (window_min fes w i).

(** The candidate positions, in either mode of detection. *)
Definition candidate_positions (scipy : bool) (fes : list float) : list nat :=
  let w := Z.to_nat (half_width fes) in
  if scipy
  then filter (is_relmin fes (half_width fes)) (seq 0 (length fes))
  else filter (is_window_min fes w) (seq w (length fes - w - w)).

(** The result built from the candidate positions. *)
Definition minima_of (cv_vals fes_vals : list float) (threshold : float)
           (candidates : list nat) : option minima_set :=
  match candidates with
  | [] => None
  | first :: rest =>
      let kept := first :: retained_after fes_vals threshold first rest in
      let min_e := map (energy_at fes_vals) kept in
      Some {| cv := map (fun i => nth i cv_vals PrimFloat.nan) kept;
              energies := min_e;
              deltaG_pairs := energy_pairs min_e;
              n_minima := Z.of_nat (length kept) |}
  end.

(** The bias records with time up to the bound. *)
Definition records_up_to (hills : ndarray) (t_block : float) : ndarray :=
  select_rows hills
    (map (fun t => PrimFloat.leb t t_block)
         (map (fun r => nth 0 r PrimFloat.nan) hills)).

(** ** Sample inputs *)

(** A bias-record file with one metadata line, three records and a line
    that is not numeric. *)
Definition sample_hills_file : list string :=
  ["#! FIELDS time cv1 sigma1 height biasfactor
";
   "0.000  1.500  0.300  1.200  15.0
";
   "1.000  1.600  0.300  1.100  15.0
";
   "2.000  oops   0.300  1.000  15.0
";
   "2.000  1.700  0.300  0.900  15.0
"].

Definition sample_hills_table : ndarray :=
  [[0; 1.5; 0.3; 1.2; 15]; [1; 1.6; 0.3; 1.1; 15]; [2; 1.7; 0.3; 0.9; 15]]%float.

(** Two numeric lines with different numbers of tokens. *)
Definition ragged_file : list string :=
  ["1 2
"; "3
"].

(** A table whose first height is negative. *)
Definition negative_height_table : ndarray :=
  [[0; -1; 15]; [1; 0.5; 15]]%float.

(** A table whose last height is zero. *)
Definition vanishing_height_table : ndarray :=
  [[0; 1; 15]; [1; 0; 15]]%float.

(** The parabola [energy = cv^2] on the coordinates -5 .. 5. *)
Definition parabola_file : list string :=
  ["#! FIELDS cv file.free
"; "-5 25
"; "-4 16
"; "-3 9
"; "-2 4
"; "-1 1
"; "0 0
"; "1 1
"; "2 4
"; "3 9
"; "4 16
"; "5 25
"].

Definition parabola_table : ndarray :=
  [[-5; 25]; [-4; 16]; [-3; 9]; [-2; 4]; [-1; 1]; [0; 0];
   [1; 1]; [2; 4]; [3; 9]; [4; 16]; [5; 25]]%float.

(** A renormalized profile with wells at positions 3 and 9: the peak between
    them has energy 5, the second well has energy 3. *)
Definition two_wells : list float :=
  [4; 2; 1; 0; 1; 2; 5; 4.5; 4; 3; 4; 5; 6]%float.

Definition sample_colvar_file : list string :=
  ["#! FIELDS time cv
"; "0 1.0
"; "10 2.0
"].

Definition two_hills_file : list string :=
  ["#! FIELDS time cv sigma height biasf
"; "0 1.0 0.3 1.2 15
"; "8 1.2 0.3 1.0 15
"].

Definition sample_args : cli_args :=
  {| temp := 300; biasfactor := 15; kt := 2.49 |}.

Definition sample_profile_lines : list string :=
  ["-1 3.5
"; "0 0
"; "1 2.25
"].

(** An external program that ends with status zero on every window, but
    writes only a header, no data row, for a window of a single record. *)
Definition header_only_tool (block : ndarray) (kt : option float)
  : Z * option (list string) :=
  if (length block =? 1)%nat
  then (0, Some ["#! FIELDS cv file.free
"])
  else (0, Some sample_profile_lines).

(** An external program that fails, with status one and no output file, for
    a window of a single record. *)
Definition failing_tool (block : ndarray) (kt : option float)
  : Z * option (list string) :=
  if (length block =? 1)%nat then (1, None) else (0, Some sample_profile_lines).

Definition sample_hills_conv : hills_convergence :=
  {| time := [0; 1; 2]%float;
     heights := [1.2; 1.1; 0.9]%float;
     n_gaussians := 3;
     h_initial := 1.2%float;
     h_final := 0.9%float;
     h_ratio := 0.75%float;
     total_time_ps := 2%float |}.

Definition spans_result (spans : list float) : deltaG_result :=
  {| times := map (fun _ => 0%float) spans; deltaG := spans; minima := None |}.

(** ** Paths, derived data files and the steps around the analysis *)

(** [s.endswith(p)] *)
Definition endswith (s p : string) : bool :=
  startswith (string_of_list_ascii (rev (list_ascii_of_string s)))
             (string_of_list_ascii (rev (list_ascii_of_string p))).

(** [os.path.join(a, b)] on a POSIX system. *)
Definition os_path_join (a b : string) : string :=
  if startswith b "/" then b
  else if str_empty a || endswith a "/" then (a ++ b)%string
  else (a ++ "/" ++ b)%string.

(** [save_data_files(output_dir, hills_conv, deltaG_data)]: the files it
    writes, each with its path and the sequence of its [f.write] calls.
    The second file is written only when there is at least one span. *)
Definition save_data_files (output_dir : string) (hills_conv : hills_convergence)
           (deltaG_data : deltaG_result)
  : list (string * list (list piece)) :=
  [(os_path_join output_dir "gaussian_heights.dat",
    [Lit "# time(ps)  height(kJ/mol)
"]
    :: map (fun '(t, h) => [Fmt ".4f" t; Lit "  "; Fmt ".6f" h; Lit "
"])
           (combine (time hills_conv) (heights hills_conv)))]
  ++ match deltaG deltaG_data with
     | [] => []
     | _ =>
         [(os_path_join output_dir "deltaG_vs_time.dat",
           [Lit "# time(ps)  deltaG(kJ/mol)
"]
           :: map (fun '(t, dg) => [Fmt ".4f" t; Lit "  "; Fmt ".4f" dg; Lit "
"])
                  (combine (times deltaG_data) (deltaG deltaG_data)))]
     end.

(** The two ways [int(x)] fails on a float: [ValueError] on [nan],
    [OverflowError] on an infinity. *)
Inductive int_error : Set :=
| IntOfNan
| IntOfInfinity.

(** [int(x)] on a float: the fraction is cut off. *)
Definition py_int (x : float) : int_error + Z :=
  match Prim2SF x with
  | S754_nan => inl IntOfNan
  | S754_infinity _ => inl IntOfInfinity
  | S754_zero _ => inr 0
  | S754_finite s m e =>
      let a := if 0 <=? e then Z.pos m * 2 ^ e else Z.pos m / 2 ^ (- e) in
      inr (if s then - a else a)
  end.

(** The exit status of the [k]-th process a call of [run_sum_hills] starts
    with [subprocess.run(cmd, ...)]; each argument of the command line is a
    formatted string.  The program is taken to be found on the PATH. *)
Variable subprocess_run : nat -> list (list piece) -> Z.

(** The command line of [plumed sum_hills]; [extra] holds the arguments put
    before the optional [--kt]. *)
Definition sum_hills_command (hills_file out_file : string) (args : cli_args)
           (extra : list (list piece)) : list (list piece) :=
  [[Lit "plumed"]; [Lit "sum_hills"];
   [Lit "--hills"]; [Lit hills_file];
   [Lit "--outfile"]; [Lit out_file];
   [Lit "--mintozero"]]
  ++ extra
  ++ match kt_option args with
     | Some k => [[Lit "--kt"]; [Fmt "" k]]
     | None => []
     end.

(** [for t_max in time_blocks]: [k] counts the processes started so far,
    [fes_files] is the list appended to. *)
Fixpoint sum_hills_blocks (hills_file output_prefix : string) (args : cli_args)
         (time_blocks : list float) (k : nat) (fes_files : list string)
  : int_error + list string :=
  match time_blocks with
  | [] => inr fes_files
  | t_max :: rest =>
      let out_file :=
        (output_prefix ++ "_fes_t" ++ format_0f t_max ++ ".dat")%string in
      match py_int t_max with
      | inl e => inl e
      | inr stride =>
          let cmd := sum_hills_command hills_file out_file args
                                       [[Lit "--stride"]; [Int stride]] in
          let returncode := subprocess_run k cmd in
          sum_hills_blocks hills_file output_prefix args rest (S k)
            (if returncode =? 0 then fes_files ++ [out_file] else fes_files)
      end
  end.

(** [run_sum_hills(hills_file, output_prefix, args, time_blocks)];
    [time_blocks] is [None] for the reconstruction over the whole
    trajectory. *)
Definition run_sum_hills (hills_file output_prefix : string) (args : cli_args)
           (time_blocks : option (list float)) : int_error + list string :=
  match time_blocks with
  | None =>
      let out_file := (output_prefix ++ "_fes.dat")%string in
      let cmd := sum_hills_command hills_file out_file args [] in
      if subprocess_run 0 cmd =? 0 then inr [out_file] else inr []
  | Some blocks => sum_hills_blocks hills_file output_prefix args blocks 0 []
  end.

(** The parsed command line of [main]. *)
Record options : Type := {
  opt_hills : string;
  opt_colvar : option string;
  opt_temp : float;
  opt_biasfactor : float;
  opt_output_dir : string;
  opt_n_blocks : Z;
  opt_no_fes : bool
}.

(** What a run of [main] leaves when it reaches its end: the data files,
    the report, and the block statistics of the heights when they are
    computed. *)
Record main_output : Type := {
  data_files : list (string * list (list piece));
  report_file : string * list (list piece);
  block_statistics : option (float * float * list float)
}.

(** [subprocess.run] raises [FileNotFoundError] when the program cannot be
    started; the other exceptions come from the analysis. *)
Inductive main_error : Set :=
| FileNotFoundError
| Uncaught (e : exn).

Inductive main_result : Type :=
| Completed (out : main_output)
| Exited (code : Z) (stderr : string)
| Failed (e : main_error).

Definition and_then {A : Type} (r : result A) (k : A -> main_result)
  : main_result :=
  match r with
  | Ok a => k a
  | Raise e => Failed (Uncaught e)
  | SysExit code msg => Exited code msg
  end.

Definition kB : float := 0.0083144621%float.

Definition no_deltaG : deltaG_result :=
  {| times := []; deltaG := []; minima := None |}.

(** [if args.colvar]: a path that is given and not empty. *)
Definition given (path : option string) : option string :=
  match path with
  | Some p => if str_empty p then None else Some p
  | None => None
  end.

(** The end of [main]: the results are saved, then the heights are block
    averaged when there are more than ten of them. *)
Definition save_results (opts : options) (args : cli_args)
           (hills_conv : hills_convergence) (deltaG_data : deltaG_result)
  : main_result :=
  let files := save_data_files (opt_output_dir opts) hills_conv deltaG_data in
  let report :=
    (os_path_join (opt_output_dir opts) "convergence_report.txt",
     save_convergence_report hills_conv deltaG_data args) in
  if 10 <? n_gaussians hills_conv then
    and_then (block_averaging (heights hills_conv) 5)
             (fun statistics =>
                Completed {| data_files := files;
                             report_file := report;
                             block_statistics := Some statistics |})
  else Completed {| data_files := files;
                    report_file := report;
                    block_statistics := None |}.

(** [main()] after the parsing of the command line, without its messages
    on the standard output; the output directory can be created and its
    files written.  [hills_file] and [colvar_file] hold the lines
    of the two input files; [plumed_help] is the exit status of
    [plumed --help], [None] when the program cannot be started;
    [fes_main_file] holds the lines of [metad_fes.dat] in the output
    directory when the detector looks for it, [None] when it is not
    there. *)
Definition main (opts : options) (scipy : bool)
           (hills_file colvar_file : list string) (plumed_help : option Z)
           (fes_main_file : option (list string)) : main_result :=
  let args := {| temp := opt_temp opts;
                 biasfactor := opt_biasfactor opts;
                 kt := PrimFloat.mul kB (opt_temp opts) |} in
  and_then (analyze_hills_convergence (opt_hills opts) hills_file)
    (fun hills_conv =>
       if opt_no_fes opts then save_results opts args hills_conv no_deltaG
       else
         match plumed_help with
         | None => Failed FileNotFoundError
         | Some status =>
             if status =? 0 then
               let fes_files :=
                 run_sum_hills (opt_hills opts)
                               (os_path_join (opt_output_dir opts) "metad")
                               args None in
               and_then
                 (match given (opt_colvar opts) with
                  | Some colvar =>
                      series <- compute_deltaG_vs_time
                                  colvar colvar_file (opt_hills opts)
                                  hills_file args (opt_n_blocks opts) ;;
                      Ok {| times := times series;
                            deltaG := deltaG series;
                            minima := None |}
                  | None => Ok no_deltaG
                  end)
                 (fun deltaG_data =>
                    let fes_main :=
                      os_path_join (opt_output_dir opts) "metad_fes.dat" in
                    and_then
                      (find_fes_minima scipy fes_main fes_main_file 2.5%float)
                      (fun found =>
                         save_results opts args hills_conv
                           match found with
                           | Some m => {| times := times deltaG_data;
                                          deltaG := deltaG deltaG_data;
                                          minima := Some m |}
                           | None => deltaG_data
                           end))
             else save_results opts args hills_conv no_deltaG
         end).

(** ** More vocabulary of the statements *)

(** The position of the height column: numpy counts the index [-1] of a
    one-column table from the end. *)
Definition height_column (c : nat) : nat :=
  match c with
  | 1%nat => 0%nat
  | _ => (c - 2)%nat
  end.

(** The two lines the report writes for a ratio below 0.01. *)
Definition converged_lines : list (list piece) :=
  [[Lit "  ✓ CONVERGIDO: Gaussianas prácticamente nulas
"];
   [Lit "    El FES está bien definido.
"]].

(** What the detector makes of a loaded table. *)
Definition detected (scipy : bool) (threshold : float) (data : ndarray)
  : option minima_set :=
  if (shape1 data <? 2)%nat then None
  else
    match renormalized data with
    | Ok fes_vals =>
        minima_of (map (fun r => nth 0 r PrimFloat.nan) data) fes_vals
                  threshold (candidate_positions scipy fes_vals)
    | _ => None
    end.

(** ** More sample inputs *)

Definition single_column_table : ndarray := [[1]; [2]]%float.

Definition comments_only_file : list string :=
  ["# only comments
"; "# no data here
"].

(** The profile [two_wells] on the coordinates 0 .. 12, as a file. *)
Definition two_wells_file : list string :=
  [
   "0 4
";
   "1 2
";
   "2 1
";
   "3 0
";
   "4 1
";
   "5 2
";
   "6 5
";
   "7 4.5
";
   "8 4
";
   "9 3
";
   "10 4
";
   "11 5
";
   "12 6
"].

(** Twelve bias records with heights going down from 12 to 1. *)
Definition twelve_hills_file : list string :=
  [
   "0 1 1 12 15
";
   "1 1 1 11 15
";
   "2 1 1 10 15
";
   "3 1 1 9 15
";
   "4 1 1 8 15
";
   "5 1 1 7 15
";
   "6 1 1 6 15
";
   "7 1 1 5 15
";
   "8 1 1 4 15
";
   "9 1 1 3 15
";
   "10 1 1 2 15
";
   "11 1 1 1 15
"].

Definition twelve_hills_table : ndarray :=
  [[0; 1; 1; 12; 15];
   [1; 1; 1; 11; 15];
   [2; 1; 1; 10; 15];
   [3; 1; 1; 9; 15];
   [4; 1; 1; 8; 15];
   [5; 1; 1; 7; 15];
   [6; 1; 1; 6; 15];
   [7; 1; 1; 5; 15];
   [8; 1; 1; 4; 15];
   [9; 1; 1; 3; 15];
   [10; 1; 1; 2; 15];
   [11; 1; 1; 1; 15]]%float.

Definition two_hills_table : ndarray :=
  [[0; 1; 0.3; 1.2; 15]; [8; 1.2; 0.3; 1; 15]]%float.

Definition two_hills_conv : hills_convergence :=
  {| time := [0; 8]%float;
     heights := [1.2; 1]%float;
     n_gaussians := 2;
     h_initial := 1.2%float;
     h_final := 1%float;
     h_ratio := PrimFloat.div 1 1.2;
     total_time_ps := 8%float |}.

Definition sample_colvar_table : ndarray := [[0; 1]; [10; 2]]%float.

Definition sample_profile_table : ndarray :=
  [[-1; 3.5]; [0; 0]; [1; 2.25]]%float.

Definition sample_options (no_fes : bool) (colvar : option string) : options :=
  {| opt_hills := "HILLS";
     opt_colvar := colvar;
     opt_temp := 300%float;
     opt_biasfactor := 15%float;
     opt_output_dir := "analysis";
     opt_n_blocks := 2;
     opt_no_fes := no_fes |}.

(** Every process started ends with status zero. *)
Definition every_process_succeeds (k : nat) (cmd : list (list piece)) : Z := 0.

(** What the detector finds in [two_wells_file] with the threshold 2. *)
Definition two_wells_minima : minima_set :=
  {| cv := [3; 9]%float;
     energies := [0; 3]%float;
     deltaG_pairs := [(0, 1, 3%float)];
     n_minima := 2 |}.

(** A series with the single window bound 10. *)
Definition one_window_series : deltaG_result :=
  {| times := [10%float]; deltaG := [3.5%float]; minima := None |}.

(** ** Facts on the record loader *)

Lemma floats_of_tokens_numeric (tokens : list string) :
  forallb parses tokens = true ->
  exists vs, floats_of_tokens tokens = Some vs /\ length vs = length tokens.
Proof.
  unfold parses.
  induction tokens as [|x rest IH]; simpl; intros H.
  - exists []. split; reflexivity.
  - destruct (py_float x) as [v|]; [|discriminate].
    simpl in H. destruct (IH H) as [vs [E L]].
    exists (v :: vs). rewrite E. simpl. split; congruence.
Qed.

Lemma floats_of_tokens_not_numeric (tokens : list string) :
  forallb parses tokens = false -> floats_of_tokens tokens = None.
Proof.
  unfold parses.
  induction tokens as [|x rest IH]; simpl; intros H; [discriminate|].
  destruct (py_float x) as [v|]; [|reflexivity].
  simpl in H. rewrite (IH H). reflexivity.
Qed.

Lemma read_lines_rows (comment : string) (f : list string)
      (data : list (list float)) :
  read_lines comment f data
  = data ++ map row_of_line (parseable_lines comment f).
Proof.
  revert data. induction f as [|line rest IH]; intros data; simpl.
  - now rewrite app_nil_r.
  - unfold data_line, numeric_line, row_of_line.
    destruct (str_empty (strip line) || startswith (strip line) comment
              || startswith (strip line) "@") eqn:Eskip; simpl.
    + apply IH.
    + destruct (forallb parses (split (strip line))) eqn:Enum.
      * destruct (floats_of_tokens_numeric _ Enum) as [vs [E _]].
        rewrite E. simpl. rewrite E. rewrite IH.
        rewrite <- app_assoc. reflexivity.
      * rewrite (floats_of_tokens_not_numeric _ Enum). apply IH.
Qed.

Lemma row_of_line_length (comment : string) (f : list string) (l : string) :
  In l (parseable_lines comment f) ->
  length (row_of_line l) = token_count l.
Proof.
  unfold parseable_lines. rewrite filter_In. intros [_ H].
  apply andb_prop in H. destruct H as [_ H].
  destruct (floats_of_tokens_numeric _ H) as [vs [E L]].
  unfold row_of_line, token_count. now rewrite E.
Qed.

Lemma forallb_map_ext_in {A B : Type} (g : A -> B) (p : B -> bool)
      (q : A -> bool) (l : list A) :
  (forall a, In a l -> p (g a) = q a) ->
  forallb p (map g l) = forallb q l.
Proof.
  induction l as [|a l IH]; simpl; intros H; [reflexivity|].
  rewrite H by now left. rewrite IH; [reflexivity|].
  intros b Hb. apply H. now right.
Qed.

Lemma rectangular_rows (comment : string) (f : list string) :
  rectangular (map row_of_line (parseable_lines comment f))
  = same_token_count (parseable_lines comment f).
Proof.
  pose proof (row_of_line_length comment f) as L.
  destruct (parseable_lines comment f) as [|l rest]; [reflexivity|].
  simpl. apply forallb_map_ext_in. intros a Ha.
  rewrite (L a) by now right. rewrite (L l) by now left. reflexivity.
Qed.

Lemma rectangular_Forall (data : list (list float)) :
  rectangular data = true ->
  exists c, Forall (fun r => length r = c) data.
Proof.
  destruct data as [|r rest]; simpl; intros H.
  - exists 0%nat. constructor.
  - exists (length r). constructor; [reflexivity|].
    rewrite forallb_forall in H. apply Forall_forall. intros r' Hr'.
    apply Nat.eqb_eq. now apply H.
Qed.

Lemma load_plumed_file_rows (filepath comment : string) (f : list string) :
  load_plumed_file filepath comment f
  = match map row_of_line (parseable_lines comment f) with
    | [] => SysExit 1 (no_data_message filepath)
    | data => np_array data
    end.
Proof.
  unfold load_plumed_file. rewrite read_lines_rows. reflexivity.
Qed.

Lemma load_plumed_file_Ok (filepath comment : string) (f : list string)
      (t : ndarray) :
  load_plumed_file filepath comment f = Ok t ->
  t <> [] /\ rectangular t = true
  /\ t = map row_of_line (parseable_lines comment f).
Proof.
  rewrite load_plumed_file_rows.
  destruct (map row_of_line (parseable_lines comment f)) as [|r rest] eqn:E;
    [discriminate|].
  unfold np_array. destruct (rectangular (r :: rest)) eqn:R; [|discriminate].
  intros H. injection H as <-. repeat split; [discriminate|assumption].
Qed.

(** C9.  Every table the record loader returns is non-empty, and all of its
    rows have the same number of columns. *)
Theorem loaded_table_shape (filepath comment : string) (f : list string)
        (t : ndarray) :
  load_plumed_file filepath comment f = Ok t ->
  t <> [] /\ exists c, Forall (fun row => length row = c) t.
Proof.
  intros H. apply load_plumed_file_Ok in H. destruct H as [Hne [Hrect _]].
  split; [exact Hne|]. now apply rectangular_Forall.
Qed.

(** C3 (amended).  A data line with a token that is not a float is dropped
    without any exception: the outcome is that of the file without the line.
    The loader exits, with status 1 and a message on the standard error
    stream that names the path, if and only if the file has no
    non-comment, non-metadata, fully numeric line.  Otherwise, when these
    lines all carry the same number of tokens, it returns a table with one
    row per such line; when they do not, building the array raises
    [ValueError]. *)
Theorem load_plumed_file_contract (filepath comment : string) (f : list string) :
  let good := parseable_lines comment f in
  (forall before bad after,
      f = before ++ bad :: after ->
      data_line comment bad = true ->
      numeric_line bad = false ->
      load_plumed_file filepath comment f
      = load_plumed_file filepath comment (before ++ after))
  /\ (good = [] ->
      load_plumed_file filepath comment f = SysExit 1 (no_data_message filepath))
  /\ (forall code msg,
      load_plumed_file filepath comment f = SysExit code msg -> good = [])
  /\ (good <> [] -> same_token_count good = true ->
      exists t, load_plumed_file filepath comment f = Ok t
                /\ length t = length good)
  /\ (good <> [] -> same_token_count good = false ->
      load_plumed_file filepath comment f = Raise ValueError).
Proof.
  intros good. repeat split.
  - intros before bad after -> Hdata Hnum.
    rewrite !load_plumed_file_rows. unfold parseable_lines.
    rewrite !filter_app. simpl. rewrite Hdata, Hnum. reflexivity.
  - intros Hgood. rewrite load_plumed_file_rows. fold good. now rewrite Hgood.
  - intros code msg. rewrite load_plumed_file_rows. fold good.
    destruct good as [|l rest]; [reflexivity|]. simpl. unfold np_array.
    destruct (rectangular _); discriminate.
  - intros Hne Hsame. rewrite load_plumed_file_rows.
    pose proof (rectangular_rows comment f) as R. fold good in R |- *.
    rewrite Hsame in R.
    destruct good as [|l rest] eqn:E; [congruence|].
    exists (map row_of_line (l :: rest)). split.
    + cbn [map]. unfold np_array. cbn [map] in R. now rewrite R.
    + now rewrite length_map.
  - intros Hne Hsame. rewrite load_plumed_file_rows.
    pose proof (rectangular_rows comment f) as R. fold good in R |- *.
    rewrite Hsame in R.
    destruct good as [|l rest] eqn:E; [congruence|].
    cbn [map]. unfold np_array. cbn [map] in R. now rewrite R.
Qed.

(** ** Facts on block averaging *)

Lemma slice_bound_inside (n : nat) (k : nat) :
  (k <= n)%nat -> slice_bound n (Z.of_nat k) = k.
Proof.
  intros H. unfold slice_bound.
  destruct (Z.ltb_spec (Z.of_nat k) 0) as [Hneg|_]; [lia|].
  rewrite Z.min_l by lia. apply Nat2Z.id.
Qed.

Lemma py_slice_inside {A : Type} (l : list A) (a b : nat) :
  (a <= b <= length l)%nat ->
  py_slice l (Z.of_nat a) (Z.of_nat b) = firstn (b - a) (skipn a l).
Proof.
  intros H. unfold py_slice.
  rewrite !slice_bound_inside by lia. reflexivity.
Qed.

Lemma fold_block_step (data : list float) (block_size : Z) (l : list Z)
      (acc : list float) :
  fold_left (block_step data block_size) l acc
  = acc ++ map (fun i => np_mean (py_slice data (i * block_size)
                                           (i * block_size + block_size))) l.
Proof.
  revert acc. induction l as [|i l IH]; intros acc; simpl.
  - now rewrite app_nil_r.
  - rewrite IH. unfold block_step. now rewrite <- app_assoc.
Qed.

Lemma block_size_nat (n : nat) (n_blocks : Z) :
  1 <= n_blocks ->
  Z.of_nat n / n_blocks = Z.of_nat (n / Z.to_nat n_blocks).
Proof.
  intros H. rewrite Nat2Z.inj_div. now rewrite Z2Nat.id by lia.
Qed.

Lemma run_inside (n size count i : nat) :
  size = (n / count)%nat -> (i < count)%nat -> (i * size + size <= n)%nat.
Proof.
  intros -> Hi.
  assert (count * (n / count) <= n)%nat by (apply Nat.Div0.mul_div_le).
  nia.
Qed.

Lemma block_run_length (data : list float) (count i : nat) :
  (i < count)%nat ->
  length (block_run data (length data / count) i) = (length data / count)%nat.
Proof.
  intros Hi. unfold block_run.
  pose proof (run_inside (length data) _ count i eq_refl Hi) as Hin.
  rewrite length_firstn, length_skipn. lia.
Qed.

Lemma block_means_runs (data : list float) (n_blocks : Z) :
  1 <= n_blocks ->
  fold_left (block_step data (Z.of_nat (length data) / n_blocks))
            (py_range n_blocks) []
  = run_means data (length data / Z.to_nat n_blocks) (Z.to_nat n_blocks).
Proof.
  intros HB. rewrite fold_block_step. simpl.
  unfold py_range, run_means. rewrite map_map.
  apply map_ext_in. intros i Hi. apply in_seq in Hi.
  rewrite block_size_nat by assumption.
  set (size := (length data / Z.to_nat n_blocks)%nat).
  pose proof (run_inside (length data) size (Z.to_nat n_blocks) i eq_refl) as Hin.
  replace (Z.of_nat i * Z.of_nat size) with (Z.of_nat (i * size)) by lia.
  replace (Z.of_nat (i * size) + Z.of_nat size)
    with (Z.of_nat (i * size + size)) by lia.
  rewrite py_slice_inside by lia.
  unfold block_run. f_equal. f_equal. lia.
Qed.

Lemma block_averaging_runs (data : list float) (n_blocks : Z) :
  1 <= n_blocks <= Z.of_nat (length data) ->
  let block_means :=
    run_means data (length data / Z.to_nat n_blocks) (Z.to_nat n_blocks) in
  block_averaging data n_blocks
  = Ok (np_mean block_means,
        PrimFloat.div (np_std block_means) (np_sqrt_int n_blocks),
        block_means).
Proof.
  intros [HB Hn] block_means. unfold block_averaging.
  destruct (Z.eqb_spec n_blocks 0) as [|_]; [lia|].
  destruct (Z.eqb_spec (Z.of_nat (length data) / n_blocks) 0) as [Hz|_].
  - exfalso. apply Z.div_small_iff in Hz; lia.
  - rewrite block_means_runs by assumption. reflexivity.
Qed.

Lemma block_run_prefix (data : list float) (size count i : nat) :
  (i < count)%nat ->
  block_run (firstn (count * size) data) size i = block_run data size i.
Proof.
  intros Hi. unfold block_run.
  rewrite !firstn_skipn_comm. rewrite firstn_firstn.
  f_equal. f_equal. nia.
Qed.

Lemma nth_map_seq {A : Type} (g : nat -> A) (count i : nat) (d : A) :
  (i < count)%nat -> nth i (map g (seq 0 count)) d = g i.
Proof.
  intros Hi.
  rewrite (nth_indep _ d (g 0%nat)) by now rewrite length_map, length_seq.
  rewrite (map_nth g). now rewrite seq_nth.
Qed.

(** C4 (amended).  For a block count [B] with [1 <= B <= len(data)], the list
    of block means has exactly [B] elements, element [i] being the mean of
    the [i]-th contiguous run of [len(data) // B] elements; the reported mean
    is the mean of the block means, and the reported standard error is the
    population standard deviation of the block means ([np.std] with its
    default [ddof=0]) divided by the square root of [B]. *)
Theorem block_averaging_blocks (data : list float) (n_blocks : Z) :
  1 <= n_blocks <= Z.of_nat (length data) ->
  let size := (length data / Z.to_nat n_blocks)%nat in
  exists block_means,
    block_averaging data n_blocks
    = Ok (np_mean block_means,
          PrimFloat.div (np_std block_means)
                        (PrimFloat.sqrt (float_of_Z n_blocks)),
          block_means)
    /\ length block_means = Z.to_nat n_blocks
    /\ forall i, (i < Z.to_nat n_blocks)%nat ->
         length (block_run data size i) = size
         /\ nth i block_means PrimFloat.nan = np_mean (block_run data size i).
Proof.
  intros H size.
  exists (run_means data size (Z.to_nat n_blocks)). split; [|split].
  - apply (block_averaging_runs data n_blocks H).
  - unfold run_means. now rewrite length_map, length_seq.
  - intros i Hi. split.
    + now apply block_run_length.
    + unfold run_means.
      now rewrite nth_map_seq.
Qed.

(** C6.  When the series is shorter than the block count, block averaging
    does not raise: it returns the mean of the series, its standard
    deviation, and the one-element list holding the mean. *)
Theorem block_averaging_short_series (data : list float) (n_blocks : Z) :
  Z.of_nat (length data) < n_blocks ->
  block_averaging data n_blocks
  = Ok (np_mean data, np_std data, [np_mean data]).
Proof.
  intros H. unfold block_averaging.
  destruct (Z.eqb_spec n_blocks 0) as [|_]; [lia|].
  rewrite Z.div_small by lia. reflexivity.
Qed.

(** C10.  With [1 <= B <= n], the elements after the first [B * (n // B)]
    belong to no block: two series of the same length that agree on these
    first elements get the same mean, standard error and block means.  The
    reported mean can differ from the mean of the whole series. *)
Theorem block_averaging_ignores_tail :
  (forall (data data' : list float) (n_blocks : Z),
      1 <= n_blocks <= Z.of_nat (length data) ->
      length data' = length data ->
      let used := (Z.to_nat n_blocks * (length data / Z.to_nat n_blocks))%nat in
      firstn used data' = firstn used data ->
      block_averaging data' n_blocks = block_averaging data n_blocks)
  /\ (exists (data : list float) (n_blocks : Z) (r : float * float * list float),
        1 <= n_blocks <= Z.of_nat (length data)
        /\ block_averaging data n_blocks = Ok r
        /\ PrimFloat.eqb (fst (fst r)) (np_mean data) = false).
Proof.
  split.
  - intros data data' n_blocks H Hlen used Hused.
    rewrite (block_averaging_runs data n_blocks H).
    rewrite (block_averaging_runs data' n_blocks) by now rewrite Hlen.
    rewrite Hlen. cbv zeta.
    assert (E : run_means data' (length data / Z.to_nat n_blocks)
                          (Z.to_nat n_blocks)
                = run_means data (length data / Z.to_nat n_blocks)
                            (Z.to_nat n_blocks)).
    { unfold run_means. apply map_ext_in. intros i Hi. apply in_seq in Hi.
      rewrite <- (block_run_prefix data _ (Z.to_nat n_blocks)) by lia.
      rewrite <- (block_run_prefix data' _ (Z.to_nat n_blocks)) by lia.
      fold used. now rewrite Hused. }
    now rewrite E.
  - exists [1; 2; 3; 4; 100]%float, 2. eexists. split; [simpl; lia|].
    split; [reflexivity|]. vm_compute. reflexivity.
Qed.

(** ** Facts on the filtering of the candidate minima *)

Lemma getitem_inside (a : list float) (i : nat) :
  (i < length a)%nat -> getitem a (Z.of_nat i) = Ok (nth i a PrimFloat.nan).
Proof.
  intros H. unfold getitem, py_index.
  destruct (Z.leb_spec 0 (Z.of_nat i)); [|lia].
  destruct (Z.ltb_spec (Z.of_nat i) (Z.of_nat (length a))); [|lia].
  simpl. now rewrite Nat2Z.id.
Qed.

Lemma np_max_between (fes : list float) (a b : nat) :
  (a <= b)%nat -> (b < length fes)%nat ->
  np_max (py_slice fes (Z.of_nat a) (Z.of_nat b + 1)) = Ok (max_between fes a b).
Proof.
  intros Hab Hb.
  replace (Z.of_nat b + 1) with (Z.of_nat (b + 1)) by lia.
  rewrite py_slice_inside by lia. unfold max_between.
  destruct (firstn (b + 1 - a) (skipn a fes)) as [|x r] eqn:E; [|reflexivity].
  apply (f_equal (@length float)) in E.
  rewrite length_firstn, length_skipn in E. simpl in E. lia.
Qed.

Lemma increasing_from_lower (lo lo' : nat) (l : list nat) :
  (lo' <= lo)%nat -> increasing_from lo l -> increasing_from lo' l.
Proof.
  destruct l as [|x r]; simpl; [trivial|]. intros H [Hx Hr]. split; [lia|exact Hr].
Qed.

Lemma filter_loop_retained (fes : list float) (threshold : float)
      (rest : list nat) :
  forall (kept : list Z) (anchor : nat),
    (anchor < length fes)%nat ->
    increasing_from anchor rest ->
    Forall (fun i => (i < length fes)%nat) rest ->
    filter_loop fes threshold (map Z.of_nat rest) (kept ++ [Z.of_nat anchor])
    = Ok (kept ++ Z.of_nat anchor
               :: map Z.of_nat (retained_after fes threshold anchor rest)).
Proof.
  induction rest as [|idx rest IH]; intros kept anchor Ha Hinc Hall.
  - reflexivity.
  - destruct Hinc as [Hlt Hinc]. inversion Hall as [|? ? Hidx Hrest]; subst.
    cbn [map filter_loop retained_after].
    rewrite last_last. rewrite np_max_between by lia.
    rewrite getitem_inside by assumption. cbn [bind].
    fold (energy_at fes idx). fold (barrier fes anchor idx).
    destruct (PrimFloat.leb threshold (barrier fes anchor idx)).
    + rewrite (IH (kept ++ [Z.of_nat anchor]) idx Hidx Hinc Hrest).
      rewrite <- app_assoc. reflexivity.
    + apply (IH kept anchor Ha); [|assumption].
      apply (increasing_from_lower idx); [lia|assumption].
Qed.

Lemma retained_after_separated (fes : list float) (threshold : float)
      (candidates : list nat) :
  forall anchor,
    separated fes threshold anchor
              (retained_after fes threshold anchor candidates).
Proof.
  induction candidates as [|idx rest IH]; intros anchor; simpl; [exact I|].
  destruct (PrimFloat.leb threshold (barrier fes anchor idx)) eqn:E.
  - simpl. split; [exact E|apply IH].
  - apply IH.
Qed.

(** C1 (amended).  On candidates in increasing position, the first candidate
    is always retained; each later candidate is retained if and only if the
    largest energy between the last retained minimum and the candidate,
    both included, less the energy of the candidate itself, is at least
    the threshold, and a retained candidate is the anchor of the
    comparisons that follow.  Adjacent retained minima are therefore
    separated by such a barrier. *)
Theorem filter_loop_rule (fes : list float) (threshold : float)
        (first : nat) (rest : list nat) :
  increasing_from first rest ->
  Forall (fun i => (i < length fes)%nat) (first :: rest) ->
  filter_loop fes threshold (map Z.of_nat rest) [Z.of_nat first]
  = Ok (map Z.of_nat (first :: retained_after fes threshold first rest))
  /\ separated fes threshold first (retained_after fes threshold first rest).
Proof.
  intros Hinc Hall. inversion Hall as [|? ? Hfirst Hrest]; subst. split.
  - apply (filter_loop_retained fes threshold rest [] first Hfirst Hinc Hrest).
  - apply retained_after_separated.
Qed.

(** ** Facts on the order of binary64 numbers *)

Lemma SFcompare_Lt_swap (a b : spec_float) :
  SFcompare a b = Some Lt -> SFcompare b a = Some Gt.
Proof.
  destruct a as [s1|s1| |s1 m1 e1], b as [s2|s2| |s2 m2 e2]; simpl;
    try discriminate;
    try (destruct s1; try destruct s2; simpl; intros H; try discriminate;
         reflexivity).
  destruct s1, s2; simpl; intros H; try discriminate; try reflexivity.
  - rewrite (Z.compare_antisym e1 e2).
    destruct (e1 ?= e2); simpl in *; try discriminate; try reflexivity.
    change Eq with (CompOpp Eq) at 1.
    rewrite <- (Pos.compare_cont_antisym m1 m2 Eq).
    destruct (Pos.compare_cont Eq m1 m2); simpl in *;
      try discriminate; reflexivity.
  - rewrite (Z.compare_antisym e1 e2).
    destruct (e1 ?= e2); simpl in *; try discriminate; try reflexivity.
    change Eq with (CompOpp Eq) at 1.
    rewrite <- (Pos.compare_cont_antisym m1 m2 Eq).
    destruct (Pos.compare_cont Eq m1 m2); simpl in *;
      try discriminate; reflexivity.
Qed.

Lemma SFcompare_refl (a b : spec_float) (c : comparison) :
  SFcompare a b = Some c -> SFcompare a a = Some Eq /\ SFcompare b b = Some Eq.
Proof.
  assert (R : forall x, x <> S754_nan -> SFcompare x x = Some Eq).
  { intros [s|s| |s m e] Hx; simpl; try congruence.
    - now destruct s.
    - destruct s; rewrite Z.compare_refl, Pos.compare_cont_refl; reflexivity. }
  intros H. split; apply R; intros Hn; rewrite Hn in H;
    [|destruct a]; simpl in H; discriminate.
Qed.

Lemma ltb_asym (a b : float) :
  PrimFloat.ltb a b = true -> PrimFloat.ltb b a = false.
Proof.
  rewrite !FloatAxioms.ltb_spec. unfold SFltb. intros H.
  destruct (SFcompare (Prim2SF a) (Prim2SF b)) as [[| |]|] eqn:E;
    try discriminate.
  now rewrite (SFcompare_Lt_swap _ _ E).
Qed.

Lemma ltb_not_nan (a b : float) :
  PrimFloat.ltb a b = true ->
  PrimFloat.eqb a a = true /\ PrimFloat.eqb b b = true.
Proof.
  rewrite FloatAxioms.ltb_spec, !FloatAxioms.eqb_spec. unfold SFltb, SFeqb. intros H.
  destruct (SFcompare (Prim2SF a) (Prim2SF b)) as [c|] eqn:E;
    try discriminate.
  destruct (SFcompare_refl _ _ _ E) as [-> ->]. now split.
Qed.

Lemma ltb_leb (a b : float) :
  PrimFloat.ltb a b = true ->
  PrimFloat.leb a b = true /\ PrimFloat.leb b a = false.
Proof.
  rewrite FloatAxioms.ltb_spec, !FloatAxioms.leb_spec. unfold SFltb, SFleb.
  intros H.
  destruct (SFcompare (Prim2SF a) (Prim2SF b)) as [[| |]|] eqn:E;
    try discriminate.
  now rewrite (SFcompare_Lt_swap _ _ E).
Qed.

(** The least element of a run is the one strictly below all the others. *)
Lemma fold_minimum_strict (v : float) (l : list float) :
  forall acc : float,
    Forall (fun x => x = v \/ PrimFloat.ltb v x = true) l ->
    acc = v \/ (PrimFloat.ltb v acc = true /\ In v l) ->
    fold_left np_minimum l acc = v.
Proof.
  induction l as [|x l IH]; intros acc Hall Hacc.
  - destruct Hacc as [->|[_ []]]. reflexivity.
  - inversion Hall as [|? ? Hx Hl]; subst. simpl. apply IH; [assumption|].
    unfold np_minimum.
    destruct Hacc as [->|[Hlt Hin]].
    + destruct Hx as [->|Hx].
      * left. now destruct (_ || _).
      * left. destruct (ltb_leb _ _ Hx) as [Hle _]. now rewrite Hle.
    + destruct (ltb_not_nan _ _ Hlt) as [_ Hacc].
      unfold is_nan. rewrite Hacc, orb_false_r.
      destruct Hx as [->|Hx].
      * left. destruct (ltb_leb _ _ Hlt) as [_ Hle]. now rewrite Hle.
      * right. destruct Hin as [->|Hin].
        { pose proof (ltb_asym _ _ Hx). congruence. }
        { split; [|assumption]. now destruct (PrimFloat.leb acc x). }
Qed.

(** ** Facts on the detection of the candidate minima *)

Lemma filter_map_comm {A B : Type} (g : A -> B) (p : B -> bool) (l : list A) :
  filter p (map g l) = map g (filter (fun a => p (g a)) l).
Proof.
  induction l as [|a l IH]; simpl; [reflexivity|].
  destruct (p (g a)); simpl; now rewrite IH.
Qed.

Lemma argrelmin_positions (data : list float) (order : Z) :
  argrelmin data order
  = map Z.of_nat (filter (is_relmin data order) (seq 0 (length data))).
Proof.
  unfold argrelmin, py_range. rewrite Nat2Z.id.
  rewrite filter_map_comm. reflexivity.
Qed.

Lemma filter_result_positions (p : Z -> result bool) (q : nat -> bool)
      (l : list nat) :
  (forall i, In i l -> p (Z.of_nat i) = Ok (q i)) ->
  filter_result p (map Z.of_nat l) = Ok (map Z.of_nat (filter q l)).
Proof.
  induction l as [|i l IH]; intros H; simpl; [reflexivity|].
  rewrite (H i) by now left. simpl.
  rewrite IH by (intros j Hj; apply H; now right). simpl.
  now destruct (q i).
Qed.

Lemma shifted_range (w : nat) (count : nat) :
  forall a,
    map (fun i => Z.of_nat w + Z.of_nat i) (seq a count)
    = map Z.of_nat (seq (w + a) count).
Proof.
  induction count as [|c IH]; intros a; simpl; [reflexivity|].
  f_equal; [lia|]. rewrite IH. now rewrite Nat.add_succ_r.
Qed.

Lemma np_min_window (fes : list float) (w i : nat) :
  (w <= i)%nat -> (i + w < length fes)%nat ->
  np_min (py_slice fes (Z.max 0 (Z.of_nat i - Z.of_nat w))
                   (Z.of_nat i + Z.of_nat w + 1))
  = Ok (window_min fes w i).
Proof.
  intros Hw Hi.
  replace (Z.max 0 (Z.of_nat i - Z.of_nat w)) with (Z.of_nat (i - w)) by lia.
  replace (Z.of_nat i + Z.of_nat w + 1) with (Z.of_nat (i + w + 1)) by lia.
  rewrite py_slice_inside by lia. unfold window_min.
  replace (i + w + 1 - (i - w))%nat with (2 * w + 1)%nat by lia.
  destruct (firstn (2 * w + 1) (skipn (i - w) fes)) as [|x r] eqn:E;
    [|reflexivity].
  apply (f_equal (@length float)) in E.
  rewrite length_firstn, length_skipn in E. simpl in E. lia.
Qed.

Lemma window_minima_positions (fes : list float) (window : Z) :
  0 <= window ->
  let w := Z.to_nat window in
  window_minima fes window
  = Ok (map Z.of_nat (filter (is_window_min fes w)
                             (seq w (length fes - w - w)))).
Proof.
  intros Hw w. unfold window_minima, py_range2.
  replace (Z.to_nat (Z.of_nat (length fes) - window - window))
    with (length fes - w - w)%nat by lia.
  replace window with (Z.of_nat w) by lia.
  rewrite (shifted_range w (length fes - w - w) 0). rewrite Nat.add_0_r.
  apply filter_result_positions. intros i Hi. apply in_seq in Hi.
  rewrite getitem_inside by lia. simpl.
  rewrite np_min_window by lia. reflexivity.
Qed.

Lemma half_width_ge_3 (fes : list float) : 3 <= half_width fes.
Proof. unfold half_width. lia. Qed.

Lemma local_minima_positions (scipy : bool) (fes : list float) :
  local_minima scipy fes (half_width fes)
  = Ok (map Z.of_nat (candidate_positions scipy fes)).
Proof.
  unfold local_minima, candidate_positions. destruct scipy.
  - now rewrite argrelmin_positions.
  - apply window_minima_positions. pose proof (half_width_ge_3 fes). lia.
Qed.

Lemma filter_seq_increasing (q : nat -> bool) (count : nat) :
  forall a lo, (lo < a)%nat -> increasing_from lo (filter q (seq a count)).
Proof.
  induction count as [|c IH]; intros a lo H; simpl; [exact I|].
  destruct (q a); simpl.
  - split; [exact H|]. apply IH. lia.
  - apply IH. lia.
Qed.

Lemma candidate_positions_inside (scipy : bool) (fes : list float) :
  Forall (fun i => (i < length fes)%nat) (candidate_positions scipy fes).
Proof.
  apply Forall_forall. intros i. unfold candidate_positions.
  destruct scipy; rewrite filter_In, in_seq; lia.
Qed.

Lemma candidate_positions_increasing (scipy : bool) (fes : list float) :
  match candidate_positions scipy fes with
  | [] => True
  | first :: rest => increasing_from first rest
  end.
Proof.
  unfold candidate_positions.
  set (w := Z.to_nat (half_width fes)).
  assert (G : forall q a count,
             match filter q (seq a count) with
             | [] => True
             | first :: rest => increasing_from first rest
             end).
  { intros q a count. revert a.
    induction count as [|c IH]; intros a; simpl; [exact I|].
    destruct (q a); [|apply IH].
    apply filter_seq_increasing. lia. }
  destruct scipy; apply G.
Qed.

Lemma take_clip_inside (fes : list float) (i : nat) :
  (i < length fes)%nat -> take_clip fes (Z.of_nat i) = energy_at fes i.
Proof.
  intros H. unfold take_clip, energy_at. f_equal. lia.
Qed.

Lemma strict_minimum_is_relmin (fes : list float) (order : Z) (m : nat) :
  strict_minimum_at fes m ->
  (0 < m)%nat -> (m + 1 < length fes)%nat ->
  is_relmin fes order m = true.
Proof.
  intros Hmin Hlo Hhi. unfold is_relmin. apply forallb_forall.
  intros shift Hshift. unfold py_range2 in Hshift.
  apply in_map_iff in Hshift. destruct Hshift as [k [<- _]].
  rewrite take_clip_inside by lia.
  apply andb_true_intro. split; unfold take_clip; apply Hmin; lia.
Qed.

Lemma window_nth (fes : list float) (w i k : nat) :
  (k < 2 * w + 1)%nat ->
  nth k (firstn (2 * w + 1) (skipn (i - w) fes)) PrimFloat.nan
  = energy_at fes (i - w + k).
Proof.
  intros Hk. rewrite nth_firstn.
  destruct (Nat.ltb_spec k (2 * w + 1)); [|lia].
  now rewrite nth_skipn.
Qed.

Lemma strict_minimum_is_window_min (fes : list float) (w m : nat) :
  strict_minimum_at fes m ->
  (1 <= w <= m)%nat -> (m + w < length fes)%nat ->
  is_window_min fes w m = true.
Proof.
  intros Hmin Hw Hm. unfold is_window_min, window_min.
  pose proof (window_nth fes w m) as Hnth.
  assert (Hlen : length (firstn (2 * w + 1) (skipn (m - w) fes))
                 = (2 * w + 1)%nat)
    by (rewrite length_firstn, length_skipn; lia).
  set (v := energy_at fes m) in *.
  assert (Hall : Forall (fun x => x = v \/ PrimFloat.ltb v x = true)
                        (firstn (2 * w + 1) (skipn (m - w) fes))).
  { apply Forall_forall. intros x Hx.
    apply (In_nth _ _ PrimFloat.nan) in Hx. destruct Hx as [k [Hk <-]].
    rewrite Hlen in Hk. rewrite Hnth by assumption.
    destruct (Nat.eq_dec (m - w + k) m) as [->|Hne]; [now left|].
    right. apply Hmin; lia. }
  assert (Hin : In v (firstn (2 * w + 1) (skipn (m - w) fes))).
  { replace v with (nth w (firstn (2 * w + 1) (skipn (m - w) fes))
                        PrimFloat.nan).
    - apply nth_In. lia.
    - rewrite Hnth by lia. unfold v. f_equal. lia. }
  assert (Hv : PrimFloat.eqb v v = true).
  { apply (ltb_not_nan v (energy_at fes (m - 1))). apply Hmin; lia. }
  destruct (firstn (2 * w + 1) (skipn (m - w) fes)) as [|x r];
    [destruct Hin|].
  inversion Hall as [|? ? Hx Hr]; subst.
  rewrite (fold_minimum_strict v r x Hr); [exact Hv|].
  destruct Hx as [->|Hx]; [now left|].
  destruct Hin as [->|Hin]; [now left|]. right. now split.
Qed.

Lemma strict_minimum_is_candidate (scipy : bool) (fes : list float) (m : nat) :
  strict_minimum_at fes m ->
  half_width fes <= Z.of_nat m ->
  Z.of_nat m + half_width fes < Z.of_nat (length fes) ->
  In m (candidate_positions scipy fes).
Proof.
  intros Hmin Hlo Hhi. pose proof (half_width_ge_3 fes) as H3.
  unfold candidate_positions. destruct scipy; apply filter_In; split.
  - apply in_seq. lia.
  - apply strict_minimum_is_relmin; [assumption|lia|lia].
  - apply in_seq. lia.
  - apply strict_minimum_is_window_min; [assumption|lia|lia].
Qed.

(** ** Facts on [find_fes_minima] *)

Lemma column_inside (a : ndarray) (k : nat) :
  (k < shape1 a)%nat ->
  column a (Z.of_nat k) = Ok (map (fun r => nth k r PrimFloat.nan) a).
Proof.
  intros H. unfold column, py_index.
  destruct (Z.leb_spec 0 (Z.of_nat k)); [|lia].
  destruct (Z.ltb_spec (Z.of_nat k) (Z.of_nat (shape1 a))); [|lia].
  simpl. now rewrite Nat2Z.id.
Qed.

Lemma take_indices_inside (a : list float) (l : list nat) :
  Forall (fun i => (i < length a)%nat) l ->
  take_indices a (map Z.of_nat l)
  = Ok (map (fun i => nth i a PrimFloat.nan) l).
Proof.
  induction l as [|i l IH]; intros H; simpl; [reflexivity|].
  inversion H as [|? ? Hi Hl]; subst.
  rewrite getitem_inside by assumption. simpl. now rewrite IH.
Qed.

Lemma retained_after_Forall (P : nat -> Prop) (fes : list float)
      (threshold : float) (candidates : list nat) :
  forall anchor,
    Forall P candidates ->
    Forall P (retained_after fes threshold anchor candidates).
Proof.
  induction candidates as [|idx rest IH]; intros anchor H; simpl;
    [constructor|].
  inversion H as [|? ? Hi Hr]; subst.
  destruct (PrimFloat.leb threshold (barrier fes anchor idx)).
  - constructor; [assumption|now apply IH].
  - now apply IH.
Qed.

Lemma renormalized_loaded (data : ndarray) :
  data <> [] -> (2 <= shape1 data)%nat ->
  exists fes_vals,
    renormalized data = Ok fes_vals /\ length fes_vals = length data.
Proof.
  intros Hne Hc. unfold renormalized.
  replace 1 with (Z.of_nat 1) by reflexivity.
  rewrite column_inside by lia. simpl.
  destruct data as [|r rest]; [congruence|]. simpl.
  eexists. split; [reflexivity|]. simpl. now rewrite !length_map.
Qed.

Lemma find_fes_minima_loaded (scipy : bool) (fes_path : string)
      (f : list string) (threshold : float) (data : ndarray)
      (fes_vals : list float) :
  load_plumed_file fes_path hash f = Ok data ->
  (2 <= shape1 data)%nat ->
  renormalized data = Ok fes_vals ->
  length fes_vals = length data ->
  find_fes_minima scipy fes_path (Some f) threshold
  = Ok (minima_of (map (fun r => nth 0 r PrimFloat.nan) data) fes_vals
                  threshold (candidate_positions scipy fes_vals)).
Proof.
  intros Hload Hc Hren Hlen. unfold find_fes_minima.
  rewrite Hload. simpl.
  destruct (Nat.ltb_spec (shape1 data) 2); [lia|].
  replace 0 with (Z.of_nat 0) by reflexivity.
  rewrite column_inside by lia. simpl.
  rewrite Hren. simpl. rewrite local_minima_positions. simpl.
  pose proof (candidate_positions_inside scipy fes_vals) as Hin.
  pose proof (candidate_positions_increasing scipy fes_vals) as Hinc.
  destruct (candidate_positions scipy fes_vals) as [|first rest];
    [reflexivity|].
  cbn [map].
  inversion Hin as [|? ? Hfirst Hrest]; subst.
  pose proof (filter_loop_retained fes_vals threshold rest [] first
                                   Hfirst Hinc Hrest) as E.
  cbn [app] in E.
  change (Z.of_nat first
            :: map Z.of_nat (retained_after fes_vals threshold first rest))
    with (map Z.of_nat (first :: retained_after fes_vals threshold first rest))
    in E.
  rewrite E. cbn [bind].
  assert (Hkept : Forall (fun i => (i < length fes_vals)%nat)
                         (first :: retained_after fes_vals threshold first rest)).
  { constructor; [assumption|]. now apply retained_after_Forall. }
  rewrite take_indices_inside by (now rewrite length_map, <- Hlen).
  rewrite take_indices_inside by assumption.
  cbn [bind minima_of]. now rewrite !length_map.
Qed.

(** C7 (amended).  For a profile that loads into a table of at least two
    columns, the detector reports the unimodal result ([None]) exactly when
    no candidate minimum is found.  A profile whose renormalized energy has
    a single strict global minimum, at least the half-width of the window
    away from both ends (a parabola, say), does have a candidate, the global
    minimum itself: the detector returns a result with at least one
    minimum, not the unimodal result. *)
Theorem find_fes_minima_unimodal (scipy : bool) (fes_path : string)
        (f : list string) (threshold : float) (data : ndarray) :
  load_plumed_file fes_path hash f = Ok data ->
  (2 <= shape1 data)%nat ->
  exists fes_vals,
    renormalized data = Ok fes_vals
    /\ local_minima scipy fes_vals (half_width fes_vals)
       = Ok (map Z.of_nat (candidate_positions scipy fes_vals))
    /\ (find_fes_minima scipy fes_path (Some f) threshold = Ok None
        <-> candidate_positions scipy fes_vals = [])
    /\ (forall m,
          strict_minimum_at fes_vals m ->
          half_width fes_vals <= Z.of_nat m ->
          Z.of_nat m + half_width fes_vals < Z.of_nat (length fes_vals) ->
          In m (candidate_positions scipy fes_vals)
          /\ exists r,
               find_fes_minima scipy fes_path (Some f) threshold = Ok (Some r)
               /\ 1 <= n_minima r).
Proof.
  intros Hload Hc.
  destruct (load_plumed_file_Ok _ _ _ _ Hload) as [Hne _].
  destruct (renormalized_loaded data Hne Hc) as [fes_vals [Hren Hlen]].
  exists fes_vals. split; [exact Hren|].
  split; [apply local_minima_positions|].
  rewrite (find_fes_minima_loaded scipy fes_path f threshold data fes_vals
             Hload Hc Hren Hlen).
  split.
  - destruct (candidate_positions scipy fes_vals); simpl; split;
      intros H; try reflexivity; discriminate.
  - intros m Hmin Hlo Hhi.
    pose proof (strict_minimum_is_candidate scipy fes_vals m Hmin Hlo Hhi) as Hin.
    split; [exact Hin|].
    destruct (candidate_positions scipy fes_vals) as [|first rest];
      [destruct Hin|].
    simpl. eexists. split; [reflexivity|]. simpl. lia.
Qed.

(** ** Facts on the bias-decay analyzer *)

Lemma nth_last (l : list float) (d : float) :
  l <> [] -> nth (length l - 1) l d = last l d.
Proof.
  intros H. destruct (exists_last H) as [l' [x ->]].
  rewrite last_last, length_app. simpl.
  rewrite app_nth2 by lia.
  replace (length l' + 1 - 1 - length l')%nat with 0%nat by lia. reflexivity.
Qed.

Lemma getitem_first (l : list float) :
  l <> [] -> getitem l 0 = Ok (hd PrimFloat.nan l).
Proof.
  destruct l as [|x r]; [congruence|]. intros _.
  unfold getitem, py_index. simpl length.
  destruct (Z.ltb_spec 0 (Z.of_nat (S (length r)))); [|lia]. reflexivity.
Qed.

Lemma getitem_last (l : list float) :
  l <> [] -> getitem l (-1) = Ok (last l PrimFloat.nan).
Proof.
  intros H. unfold getitem, py_index.
  assert (0 < length l)%nat by (destruct l; [congruence|simpl; lia]).
  change (0 <=? -1) with false. change (-1 <? 0) with true.
  destruct (Z.leb_spec (- Z.of_nat (length l)) (-1)); [|lia].
  cbn [andb bind]. f_equal.
  replace (Z.to_nat (-1 + Z.of_nat (length l))) with (length l - 1)%nat by lia.
  now apply nth_last.
Qed.

(** C5 (amended).  For a non-empty table with [c >= 2] columns the analyzer
    returns: as gaussian count the number of rows; as initial and final
    height the first and the last value of column [c - 2]; as ratio
    final / initial when the initial height is greater than zero, and zero
    otherwise; as final time the last value of column 0. *)
Theorem analyze_table_statistics (hills : ndarray) :
  hills <> [] ->
  (2 <= shape1 hills)%nat ->
  let heights := map (fun r => nth (shape1 hills - 2) r PrimFloat.nan) hills in
  let time := map (fun r => nth 0 r PrimFloat.nan) hills in
  let first := hd PrimFloat.nan heights in
  let final := last heights PrimFloat.nan in
  analyze_table hills
  = Ok {| time := time;
          heights := heights;
          n_gaussians := Z.of_nat (length hills);
          h_initial := first;
          h_final := final;
          h_ratio := if PrimFloat.ltb PrimFloat.zero first
                     then PrimFloat.div final first
                     else PrimFloat.zero;
          total_time_ps := last time PrimFloat.nan |}.
Proof.
  intros Hne Hc heights time first final. unfold analyze_table.
  replace 0 with (Z.of_nat 0) at 1 by reflexivity.
  rewrite column_inside by lia. cbn [bind]. fold time.
  replace (Z.of_nat (shape1 hills) - 2)
    with (Z.of_nat (shape1 hills - 2)) by lia.
  rewrite column_inside by lia. cbn [bind]. fold heights.
  assert (Hh : heights <> []) by (unfold heights; destruct hills; [congruence|discriminate]).
  assert (Ht : time <> []) by (unfold time; destruct hills; [congruence|discriminate]).
  assert (Hlen : length heights = length hills) by apply length_map.
  destruct (Z.ltb_spec 0 (Z.of_nat (length heights))) as [_|Hz].
  - rewrite (getitem_first heights Hh), (getitem_last heights Hh),
      (getitem_last time Ht).
    cbn [bind]. now rewrite Hlen.
  - exfalso. destruct heights; [congruence|simpl in Hz; lia].
Qed.

(** ** Facts on the convergence report *)

Lemma verdict_section_no_stability (ratio : float) (line : list piece) :
  In line (verdict_section ratio) ->
  line <> stable_line /\ line <> unstable_line.
Proof.
  unfold verdict_section, stable_line, unstable_line.
  destruct (PrimFloat.ltb ratio 0.01); [|destruct (PrimFloat.ltb ratio 0.1)];
    simpl; intros [<-|[<-|[]]]; split; discriminate.
Qed.

Lemma minima_section_no_stability (found : option minima_set)
      (line : list piece) :
  In line (minima_section found) ->
  line <> stable_line /\ line <> unstable_line.
Proof.
  unfold minima_section, stable_line, unstable_line.
  destruct found as [m|]; [|intros []].
  rewrite !in_app_iff. intros [H|[H|H]].
  - destruct H as [<-|[]]. split; discriminate.
  - apply in_map_iff in H. destruct H as [[k [cv_v e_v]] [<- _]].
    split; discriminate.
  - destruct (deltaG_pairs m) as [|p ps]; [destruct H|].
    apply in_app_iff in H. destruct H as [[<-|[]]|H]; [split; discriminate|].
    apply in_map_iff in H. destruct H as [[[i j] dG] [<- _]].
    split; discriminate.
Qed.

Lemma py_slice_last_3 (l : list float) :
  (3 <= length l)%nat ->
  py_slice l (-3) (Z.of_nat (length l)) = skipn (length l - 3) l.
Proof.
  intros H. unfold py_slice, slice_bound.
  change (-3 <? 0) with true. cbv iota.
  destruct (Z.ltb_spec (Z.of_nat (length l)) 0); [lia|].
  rewrite Z.min_id, Nat2Z.id.
  replace (Z.to_nat (Z.max 0 (-3 + Z.of_nat (length l))))
    with (length l - 3)%nat by lia.
  apply firstn_all2. rewrite length_skipn. lia.
Qed.

Lemma deltaG_section_verdict (spans : list float) :
  (3 < length spans)%nat ->
  let last_3 := skipn (length spans - 3) spans in
  (In stable_line (deltaG_section spans)
   <-> PrimFloat.ltb (np_std last_3) 2 = true)
  /\ (In unstable_line (deltaG_section spans)
      <-> PrimFloat.ltb (np_std last_3) 2 = false).
Proof.
  intros Hlen last_3. unfold deltaG_section.
  rewrite py_slice_last_3 by lia. fold last_3.
  destruct (Nat.ltb_spec 3 (length spans)) as [_|Hge]; [|lia].
  clearbody last_3.
  destruct spans as [|x r]; [simpl in Hlen; lia|]. clear Hlen.
  unfold stable_line, unstable_line.
  destruct (PrimFloat.ltb (np_std last_3) 2); simpl; split; split;
    intros H; try reflexivity; try discriminate;
    try (right; right; left; reflexivity);
    repeat (destruct H as [H|H]; [discriminate|]); try destruct H.
Qed.

(** C8 (amended).  For a sequence of more than three window spans the report
    carries the stability verdict: the line "stable" if and only if the
    standard deviation of the last three spans is below 2, and the line
    "unstable" otherwise. *)
Theorem report_stability_verdict (hills_conv : hills_convergence)
        (deltaG_data : deltaG_result) (args : cli_args) :
  (3 < length (deltaG deltaG_data))%nat ->
  let spans := deltaG deltaG_data in
  let last_3 := skipn (length spans - 3) spans in
  let report := save_convergence_report hills_conv deltaG_data args in
  (In stable_line report <-> PrimFloat.ltb (np_std last_3) 2 = true)
  /\ (In unstable_line report <-> PrimFloat.ltb (np_std last_3) 2 = false).
Proof.
  intros Hlen spans last_3 report.
  destruct (deltaG_section_verdict spans Hlen) as [Hs Hu].
  fold last_3 in Hs, Hu.
  assert (Hparts : forall line,
             line = stable_line \/ line = unstable_line ->
             (In line report <-> In line (deltaG_section spans))).
  { intros line Hline. unfold report, save_convergence_report.
    rewrite !in_app_iff. fold spans. split.
    - intros [H|[H|[H|[H|H]]]].
      + exfalso. simpl in H. unfold stable_line, unstable_line in Hline.
        repeat (destruct H as [H|H];
                [destruct Hline as [Hl|Hl]; rewrite Hl in H; discriminate|]).
        destruct H.
      + exfalso. apply verdict_section_no_stability in H. tauto.
      + exact H.
      + exfalso. apply minima_section_no_stability in H. tauto.
      + exfalso. simpl in H. unfold stable_line, unstable_line in Hline.
        destruct H as [H|[]].
        destruct Hline as [Hl|Hl]; rewrite Hl in H; discriminate.
    - intros H. right. right. left. exact H. }
  split.
  - rewrite (Hparts stable_line) by now left. exact Hs.
  - rewrite (Hparts unstable_line) by now right. exact Hu.
Qed.

(** ** Facts on the DeltaG tracker *)

Lemma lstrip_head (s : list ascii) (c : ascii) (r : list ascii) :
  lstrip s = c :: r -> isspace c = false.
Proof.
  induction s as [|a s IH]; simpl; [discriminate|].
  destruct (isspace a) eqn:E; [exact IH|].
  intros H. injection H as <- _. exact E.
Qed.

Lemma split_runs_nonempty (s : list ascii) :
  forall cur,
    cur <> [] \/ existsb (fun c => negb (isspace c)) s = true ->
    split_runs s cur <> [].
Proof.
  induction s as [|a s IH]; intros cur H; simpl.
  - destruct H as [H|H]; [|discriminate]. destruct cur; [congruence|discriminate].
  - destruct (isspace a) eqn:E.
    + destruct cur; [|discriminate]. apply IH. right.
      destruct H as [H|H]; [congruence|]. simpl in H. now rewrite E in H.
    + apply IH. left. discriminate.
Qed.

Lemma data_line_has_token (comment line : string) :
  data_line comment line = true -> (1 <= token_count line)%nat.
Proof.
  unfold data_line, token_count, split, strip. intros H.
  apply negb_true_iff in H. apply orb_false_iff in H. destruct H as [H _].
  apply orb_false_iff in H. destruct H as [H _].
  rewrite list_ascii_of_string_of_list_ascii in *.
  set (y := lstrip (rev (lstrip (list_ascii_of_string line)))) in *.
  pose proof (lstrip_head (rev (lstrip (list_ascii_of_string line)))) as Hhead.
  fold y in Hhead.
  destruct y as [|c r]; [discriminate|].
  specialize (Hhead c r eq_refl).
  assert (Hne : split_runs (rev (c :: r)) [] <> []).
  { apply split_runs_nonempty. right. simpl. rewrite existsb_app. simpl.
    rewrite Hhead. simpl. now rewrite orb_true_r. }
  destruct (split_runs (rev (c :: r)) []); [congruence|simpl; lia].
Qed.

Lemma load_plumed_file_columns (filepath comment : string) (f : list string)
      (t : ndarray) :
  load_plumed_file filepath comment f = Ok t -> (1 <= shape1 t)%nat.
Proof.
  intros H. destruct (load_plumed_file_Ok _ _ _ _ H) as [Hne [_ ->]].
  pose proof (row_of_line_length comment f) as L.
  destruct (parseable_lines comment f) as [|l rest] eqn:E; [now destruct Hne|].
  simpl. rewrite (L l) by now left.
  assert (Hin : In l (parseable_lines comment f)) by (rewrite E; now left).
  unfold parseable_lines in Hin. apply filter_In in Hin.
  destruct Hin as [_ Hin]. apply andb_prop in Hin.
  now apply (data_line_has_token comment).
Qed.

Lemma window_step_loaded (hills_path : string) (hills_file : list string)
      (args : cli_args) (acc : list (float * float)) (t_block : float)
      (hills : ndarray) :
  load_plumed_file hills_path hash hills_file = Ok hills ->
  window_step hills_path hills_file args acc t_block
  = if negb (existsb (fun b => b)
               (map (fun t => PrimFloat.leb t t_block)
                    (map (fun r => nth 0 r PrimFloat.nan) hills)))
    then Ok acc
    else
      let '(returncode, temp_fes) :=
        plumed_sum_hills (records_up_to hills t_block) (kt_option args) in
      match temp_fes with
      | Some fes_lines =>
          if returncode =? 0 then
            try_except_Exception
              (fes <- load_plumed_file (temp_fes_path t_block) hash fes_lines ;;
               fes_values <- column fes (-1) ;;
               top <- np_max fes_values ;;
               bottom <- np_min fes_values ;;
               Ok (acc ++ [(t_block, PrimFloat.sub top bottom)]))
              (Ok acc)
          else Ok acc
      | None => Ok acc
      end.
Proof.
  intros Hload. unfold window_step. rewrite Hload. cbn [bind].
  pose proof (load_plumed_file_columns _ _ _ _ Hload) as Hc.
  replace 0 with (Z.of_nat 0) at 1 by reflexivity.
  rewrite column_inside by lia. reflexivity.
Qed.

(** A window without matching records, a reconstruction that ends with a
    non-zero status, and one that leaves no output file are skipped: the
    list of spans is left as it is. *)
Lemma window_step_skipped (hills_path : string) (hills_file : list string)
      (args : cli_args) (acc : list (float * float)) (t_block : float)
      (hills : ndarray) :
  load_plumed_file hills_path hash hills_file = Ok hills ->
  records_up_to hills t_block = []
  \/ fst (plumed_sum_hills (records_up_to hills t_block) (kt_option args)) <> 0
  \/ snd (plumed_sum_hills (records_up_to hills t_block) (kt_option args)) = None ->
  window_step hills_path hills_file args acc t_block = Ok acc.
Proof.
  intros Hload H. rewrite (window_step_loaded _ _ _ _ _ _ Hload).
  destruct (existsb _ _) eqn:Emask; [|reflexivity]. cbn [negb].
  destruct H as [H|[H|H]].
  - exfalso. unfold records_up_to, select_rows in H.
    apply existsb_exists in Emask. destruct Emask as [b [Hb ->]].
    apply (In_nth _ _ false) in Hb. destruct Hb as [k [Hk Hb]].
    rewrite !length_map in Hk.
    set (mask := map _ (map _ hills)) in *.
    assert (Hin : In (nth k hills [], true) (filter snd (combine hills mask))).
    { apply filter_In. split; [|reflexivity]. rewrite <- Hb.
      rewrite <- combine_nth by (unfold mask; now rewrite !length_map).
      apply nth_In. rewrite length_combine. unfold mask.
      rewrite !length_map. lia. }
    apply (in_map fst) in Hin. rewrite H in Hin. destruct Hin.
  - destruct (plumed_sum_hills _ _) as [rc [fes_lines|]]; [|reflexivity].
    simpl in H. destruct (Z.eqb_spec rc 0); [congruence|reflexivity].
  - destruct (plumed_sum_hills _ _) as [rc out]. simpl in H. now subst out.
Qed.

(** A reconstruction that ends with status zero and leaves an output file
    without any data row takes the whole tracker down: the loader's
    [sys.exit(1)] is not an [Exception], so [except Exception] lets it
    through. *)
Lemma window_step_exits (hills_path : string) (hills_file : list string)
      (args : cli_args) (acc : list (float * float)) (t_block : float)
      (hills : ndarray) (fes_lines : list string) :
  load_plumed_file hills_path hash hills_file = Ok hills ->
  records_up_to hills t_block <> [] ->
  plumed_sum_hills (records_up_to hills t_block) (kt_option args)
  = (0, Some fes_lines) ->
  parseable_lines hash fes_lines = [] ->
  window_step hills_path hills_file args acc t_block
  = SysExit 1 (no_data_message (temp_fes_path t_block)).
Proof.
  intros Hload Hrec Htool Hempty.
  rewrite (window_step_loaded _ _ _ _ _ _ Hload).
  destruct (existsb _ _) eqn:Emask.
  - cbn [negb]. rewrite Htool. cbn [Z.eqb].
    rewrite load_plumed_file_rows, Hempty. reflexivity.
  - exfalso. apply Hrec. unfold records_up_to, select_rows.
    set (mask := map _ (map _ hills)) in *.
    assert (Hnone : forall l : list (list float * bool),
               (forall p, In p l -> snd p = false) -> filter snd l = []).
    { induction l as [|p l IH]; intros Hl; [reflexivity|]. simpl.
      rewrite (Hl p) by now left. apply IH. intros q Hq. apply Hl. now right. }
    rewrite Hnone; [reflexivity|].
    intros [row b] Hp. apply in_combine_r in Hp. simpl.
    destruct b; [|reflexivity].
    assert (existsb (fun b => b) mask = true)
      by (apply existsb_exists; now exists true).
    congruence.
Qed.

Lemma window_loop_exits (hills_path : string) (hills_file : list string)
      (args : cli_args) (before after : list float) (t_block : float)
      (acc acc' : list (float * float)) (msg : string) :
  window_loop hills_path hills_file args before acc = Ok acc' ->
  window_step hills_path hills_file args acc' t_block = SysExit 1 msg ->
  window_loop hills_path hills_file args (before ++ t_block :: after) acc
  = SysExit 1 msg.
Proof.
  revert acc. induction before as [|t before IH]; intros acc Hb Hs; simpl in *.
  - injection Hb as ->. now rewrite Hs.
  - destruct (window_step hills_path hills_file args acc t) as [next| |];
      simpl in *; try discriminate.
    now apply IH.
Qed.

(** ** More on the record loader *)

(** X1.  An empty line, a comment line or an [@] metadata line can be added
    to a file, or taken out of it, anywhere: the loader's outcome stays the
    same. *)
Theorem load_plumed_file_skips_line (filepath comment : string)
        (before after : list string) (extra : string) :
  data_line comment extra = false ->
  load_plumed_file filepath comment (before ++ extra :: after)
  = load_plumed_file filepath comment (before ++ after).
Proof.
  intros H. rewrite !load_plumed_file_rows. unfold parseable_lines.
  rewrite !filter_app. simpl. now rewrite H.
Qed.

Lemma rectangular_app (a b : list (list float)) :
  a <> [] -> rectangular a = true -> rectangular b = true ->
  shape1 a = shape1 b ->
  rectangular (a ++ b) = true.
Proof.
  destruct a as [|r a]; [congruence|]. intros _ Ha Hb Hs. simpl in *.
  rewrite forallb_app, Ha. simpl.
  destruct b as [|r' b]; [reflexivity|]. simpl in *.
  rewrite Hs, Nat.eqb_refl. exact Hb.
Qed.

(** X2.  Loading keeps the order of the file: when two files load into
    tables of the same width, their concatenation loads into the first
    table followed by the second. *)
Theorem load_plumed_file_app (filepath comment : string)
        (f1 f2 : list string) (t1 t2 : ndarray) :
  load_plumed_file filepath comment f1 = Ok t1 ->
  load_plumed_file filepath comment f2 = Ok t2 ->
  shape1 t1 = shape1 t2 ->
  load_plumed_file filepath comment (f1 ++ f2) = Ok (t1 ++ t2).
Proof.
  intros H1 H2 Hs.
  destruct (load_plumed_file_Ok _ _ _ _ H1) as [Hne1 [Hr1 E1]].
  destruct (load_plumed_file_Ok _ _ _ _ H2) as [Hne2 [Hr2 E2]].
  rewrite load_plumed_file_rows. unfold parseable_lines.
  rewrite filter_app, map_app.
  fold (parseable_lines comment f1). fold (parseable_lines comment f2).
  rewrite <- E1, <- E2.
  destruct (t1 ++ t2) as [|r rest] eqn:E.
  - apply app_eq_nil in E. destruct E. congruence.
  - rewrite <- E. unfold np_array.
    now rewrite (rectangular_app t1 t2 Hne1 Hr1 Hr2 Hs).
Qed.

(** ** More on the bias-decay analyzer *)

Lemma column_height (hills : ndarray) :
  (1 <= shape1 hills)%nat ->
  column hills (Z.of_nat (shape1 hills) - 2)
  = Ok (map (fun r => nth (height_column (shape1 hills)) r PrimFloat.nan) hills).
Proof.
  intros Hc. destruct (Nat.eq_dec (shape1 hills) 1) as [E|E].
  - unfold column. rewrite E. reflexivity.
  - replace (Z.of_nat (shape1 hills) - 2)
      with (Z.of_nat (shape1 hills - 2)) by lia.
    rewrite column_inside by lia.
    unfold height_column.
    destruct (shape1 hills) as [|[|c]]; [lia|congruence|reflexivity].
Qed.

Lemma analyze_table_columns (hills : ndarray) :
  hills <> [] ->
  (1 <= shape1 hills)%nat ->
  let heights :=
    map (fun r => nth (height_column (shape1 hills)) r PrimFloat.nan) hills in
  let time := map (fun r => nth 0 r PrimFloat.nan) hills in
  let first := hd PrimFloat.nan heights in
  let final := last heights PrimFloat.nan in
  analyze_table hills
  = Ok {| time := time;
          heights := heights;
          n_gaussians := Z.of_nat (length hills);
          h_initial := first;
          h_final := final;
          h_ratio := if PrimFloat.ltb PrimFloat.zero first
                     then PrimFloat.div final first
                     else PrimFloat.zero;
          total_time_ps := last time PrimFloat.nan |}.
Proof.
  intros Hne Hc heights time first final. unfold analyze_table.
  replace 0 with (Z.of_nat 0) at 1 by reflexivity.
  rewrite column_inside by lia. cbn [bind]. fold time.
  rewrite column_height by assumption. cbn [bind]. fold heights.
  assert (Hh : heights <> [])
    by (unfold heights; destruct hills; [congruence|discriminate]).
  assert (Ht : time <> [])
    by (unfold time; destruct hills; [congruence|discriminate]).
  assert (Hlen : length heights = length hills) by apply length_map.
  destruct (Z.ltb_spec 0 (Z.of_nat (length heights))) as [_|Hz].
  - rewrite (getitem_first heights Hh), (getitem_last heights Hh),
      (getitem_last time Ht).
    cbn [bind]. now rewrite Hlen.
  - exfalso. destruct heights; [congruence|simpl in Hz; lia].
Qed.

(** X3.  The analysis of a bias-record file ends exactly as its loading
    does: it exits or raises when the loader does, and on every table the
    loader returns it returns the statistics, with as many heights and
    times as the table has rows.  No table makes it raise [IndexError]. *)
Theorem analyze_hills_convergence_outcome (hills_path : string)
        (hills_file : list string) :
  match load_plumed_file hills_path hash hills_file with
  | Ok hills =>
      exists r,
        analyze_hills_convergence hills_path hills_file = Ok r
        /\ n_gaussians r = Z.of_nat (length hills)
        /\ length (heights r) = length hills
        /\ length (time r) = length hills
  | Raise e => analyze_hills_convergence hills_path hills_file = Raise e
  | SysExit code msg =>
      analyze_hills_convergence hills_path hills_file = SysExit code msg
  end.
Proof.
  unfold analyze_hills_convergence.
  destruct (load_plumed_file hills_path hash hills_file) as [hills|e|c m] eqn:E;
    [|reflexivity|reflexivity].
  destruct (load_plumed_file_Ok _ _ _ _ E) as [Hne _].
  pose proof (load_plumed_file_columns _ _ _ _ E) as Hc.
  cbn [bind]. rewrite (analyze_table_columns hills Hne Hc).
  eexists. split; [reflexivity|]. cbn. now rewrite !length_map.
Qed.

(** X4.  On a table with a single column the height column is the time
    column: the index [n_cols - 2 = -1] selects the last column, which is
    column 0. *)
Theorem analyze_table_single_column (hills : ndarray) :
  hills <> [] ->
  shape1 hills = 1%nat ->
  exists r, analyze_table hills = Ok r /\ heights r = time r.
Proof.
  intros Hne Hc.
  rewrite (analyze_table_columns hills Hne) by lia.
  eexists. split; [reflexivity|]. cbn. now rewrite Hc.
Qed.

(** X5.  When the first height of the table is not greater than zero (zero,
    negative or [nan]), the ratio is zero and the report words the
    simulation as converged, whatever the later heights are. *)
Theorem nonpositive_initial_height_reads_converged (hills : ndarray) :
  hills <> [] ->
  (2 <= shape1 hills)%nat ->
  PrimFloat.ltb PrimFloat.zero
                (nth (shape1 hills - 2) (hd [] hills) PrimFloat.nan) = false ->
  exists r,
    analyze_table hills = Ok r
    /\ h_ratio r = PrimFloat.zero
    /\ verdict_section (h_ratio r) = converged_lines.
Proof.
  intros Hne Hc Hfirst.
  rewrite (analyze_table_columns hills Hne) by lia.
  eexists. split; [reflexivity|]. cbn [h_ratio].
  assert (E : hd PrimFloat.nan
                 (map (fun r => nth (height_column (shape1 hills)) r PrimFloat.nan)
                      hills)
              = nth (shape1 hills - 2) (hd [] hills) PrimFloat.nan).
  { destruct hills as [|row rest]; [congruence|]. simpl.
    unfold height_column. simpl in Hc.
    destruct (length row) as [|[|c]]; [lia|lia|reflexivity]. }
  rewrite E, Hfirst. split; reflexivity.
Qed.

(** ** More on the convergence report *)

Lemma stability_lines_of_report (hills_conv : hills_convergence)
      (deltaG_data : deltaG_result) (args : cli_args) (line : list piece) :
  line = stable_line \/ line = unstable_line ->
  In line (save_convergence_report hills_conv deltaG_data args) ->
  In line (deltaG_section (deltaG deltaG_data)).
Proof.
  intros Hline. unfold save_convergence_report.
  rewrite !in_app_iff. intros [H|[H|[H|[H|H]]]].
  - exfalso. simpl in H. unfold stable_line, unstable_line in Hline.
    repeat (destruct H as [H|H];
            [destruct Hline as [Hl|Hl]; rewrite Hl in H; discriminate|]).
    destruct H.
  - exfalso. apply verdict_section_no_stability in H. tauto.
  - exact H.
  - exfalso. apply minima_section_no_stability in H. tauto.
  - exfalso. simpl in H. unfold stable_line, unstable_line in Hline.
    destruct H as [H|[]].
    destruct Hline as [Hl|Hl]; rewrite Hl in H; discriminate.
Qed.

(** X6.  With three window spans or fewer the report says nothing on the
    stability of DeltaG: it has neither the "stable" nor the "unstable"
    line; and without any span it has no DeltaG line at all. *)
Theorem report_without_verdict (hills_conv : hills_convergence)
        (deltaG_data : deltaG_result) (args : cli_args) :
  (length (deltaG deltaG_data) <= 3)%nat ->
  let report := save_convergence_report hills_conv deltaG_data args in
  ~ In stable_line report
  /\ ~ In unstable_line report
  /\ (deltaG deltaG_data = [] -> deltaG_section (deltaG deltaG_data) = []).
Proof.
  intros Hlen report.
  assert (Hs : forall line,
             line = stable_line \/ line = unstable_line ->
             ~ In line (deltaG_section (deltaG deltaG_data))).
  { intros line Hline. unfold deltaG_section.
    destruct (deltaG deltaG_data) as [|x r] eqn:E; [intros []|].
    rewrite <- E in *.
    destruct (Nat.ltb_spec 3 (length (deltaG deltaG_data))) as [Hgt|_];
      [lia|].
    rewrite E, app_nil_r. intros [H|[]].
    unfold stable_line, unstable_line in Hline.
    destruct Hline as [Hl|Hl]; rewrite Hl in H; discriminate. }
  split; [|split].
  - intros H. apply (Hs stable_line); [now left|].
    apply (stability_lines_of_report hills_conv deltaG_data args);
      [now left|exact H].
  - intros H. apply (Hs unstable_line); [now right|].
    apply (stability_lines_of_report hills_conv deltaG_data args);
      [now right|exact H].
  - intros ->. reflexivity.
Qed.

(** ** More on block averaging *)

(** X7.  A block count of zero raises [ZeroDivisionError].  A negative block
    count raises nothing: on a series that is not empty no block is formed,
    the list of block means is empty and the reported mean is [nan]. *)
Theorem block_averaging_without_blocks (data : list float) (n_blocks : Z) :
  (n_blocks = 0 -> block_averaging data n_blocks = Raise ZeroDivisionError)
  /\ (n_blocks < 0 -> data <> [] ->
      exists stderr,
        block_averaging data n_blocks = Ok (PrimFloat.nan, stderr, [])).
Proof.
  split.
  - intros ->. reflexivity.
  - intros Hneg Hne. unfold block_averaging.
    destruct (Z.eqb_spec n_blocks 0) as [|_]; [lia|].
    assert (Hlen : 0 < Z.of_nat (length data))
      by (destruct data; [congruence|simpl; lia]).
    destruct (Z.eqb_spec (Z.of_nat (length data) / n_blocks) 0) as [Hz|_].
    + exfalso.
      pose proof (Z.div_mod (Z.of_nat (length data)) n_blocks ltac:(lia)) as Hdm.
      pose proof (Z.mod_neg_bound (Z.of_nat (length data)) n_blocks Hneg).
      rewrite Hz in Hdm. lia.
    + unfold py_range. replace (Z.to_nat n_blocks) with 0%nat by lia.
      simpl. eexists. reflexivity.
Qed.

(** ** More on the local-minimum detector *)

Lemma find_fes_minima_cases (scipy : bool) (fes_path : string)
      (f : list string) (threshold : float) :
  find_fes_minima scipy fes_path (Some f) threshold
  = match load_plumed_file fes_path hash f with
    | Ok data => Ok (detected scipy threshold data)
    | Raise e => Raise e
    | SysExit _ _ => Ok None
    end.
Proof.
  destruct (load_plumed_file fes_path hash f) as [data|e|c m] eqn:E.
  - unfold detected.
    destruct (Nat.ltb_spec (shape1 data) 2) as [Hlt|Hge].
    + unfold find_fes_minima. rewrite E.
      cbn [bind try_except_SystemExit].
      destruct (Nat.ltb_spec (shape1 data) 2); [reflexivity|lia].
    + destruct (load_plumed_file_Ok _ _ _ _ E) as [Hne _].
      destruct (renormalized_loaded data Hne Hge) as [fes_vals [Hren Hlen]].
      rewrite Hren.
      apply (find_fes_minima_loaded scipy fes_path f threshold data fes_vals
               E Hge Hren Hlen).
  - unfold find_fes_minima. rewrite E. reflexivity.
  - unfold find_fes_minima. rewrite E. reflexivity.
Qed.

(** X8.  The detector gives no result, and raises nothing, when the profile
    file does not exist, when it holds no data row (the loader's exit is
    caught), and when its table has a single column. *)
Theorem find_fes_minima_no_result (scipy : bool) (fes_path : string)
        (threshold : float) :
  find_fes_minima scipy fes_path None threshold = Ok None
  /\ (forall f,
        parseable_lines hash f = [] ->
        find_fes_minima scipy fes_path (Some f) threshold = Ok None)
  /\ (forall f data,
        load_plumed_file fes_path hash f = Ok data ->
        shape1 data = 1%nat ->
        find_fes_minima scipy fes_path (Some f) threshold = Ok None).
Proof.
  split; [reflexivity|]. split.
  - intros f Hf. rewrite find_fes_minima_cases, load_plumed_file_rows, Hf.
    reflexivity.
  - intros f data Hload Hc. rewrite find_fes_minima_cases, Hload.
    unfold detected. now rewrite Hc.
Qed.

(** X9.  The detector never leaves through [sys.exit] and never raises
    [IndexError]: it raises, with the [ValueError] of the array
    construction, exactly when the numeric lines of the profile carry
    different numbers of tokens, and returns in every other case. *)
Theorem find_fes_minima_outcome (scipy : bool) (fes_path : string)
        (f : list string) (threshold : float) :
  (same_token_count (parseable_lines hash f) = true ->
   exists r, find_fes_minima scipy fes_path (Some f) threshold = Ok r)
  /\ (same_token_count (parseable_lines hash f) = false ->
      find_fes_minima scipy fes_path (Some f) threshold = Raise ValueError).
Proof.
  rewrite find_fes_minima_cases, load_plumed_file_rows.
  rewrite <- (rectangular_rows hash f).
  destruct (map row_of_line (parseable_lines hash f)) as [|row rows] eqn:E.
  - split; [eexists; reflexivity|discriminate].
  - unfold np_array. split; intros H; rewrite H; [eexists|]; reflexivity.
Qed.

Lemma py_range2_length (a b : Z) :
  length (py_range2 a b) = Z.to_nat (b - a).
Proof. unfold py_range2. now rewrite length_map, length_seq. Qed.

Lemma energy_pairs_count_upto (min_e : list float) (k : nat) :
  (k <= length min_e)%nat ->
  2 * Z.of_nat
        (length
           (flat_map
              (fun i =>
                 map (fun j =>
                        (i, j,
                         PrimFloat.sub (nth (Z.to_nat j) min_e PrimFloat.nan)
                                       (nth (Z.to_nat i) min_e PrimFloat.nan)))
                     (py_range2 (i + 1) (Z.of_nat (length min_e))))
              (map Z.of_nat (seq 0 k))))
  = Z.of_nat k * (2 * Z.of_nat (length min_e) - Z.of_nat k - 1).
Proof.
  induction k as [|k IH]; intros Hk; [reflexivity|].
  rewrite seq_S, map_app, flat_map_app, length_app.
  change (0 + k)%nat with k. cbn [map flat_map].
  rewrite app_nil_r, length_map, py_range2_length.
  rewrite Nat2Z.inj_add. specialize (IH ltac:(lia)). lia.
Qed.

Lemma energy_pairs_count (min_e : list float) :
  Z.of_nat (length (energy_pairs min_e))
  = Z.of_nat (length min_e) * (Z.of_nat (length min_e) - 1) / 2.
Proof.
  pose proof (energy_pairs_count_upto min_e (length min_e) (le_n _)) as H.
  unfold energy_pairs, py_range. rewrite Nat2Z.id.
  apply Z.div_unique_exact; [lia|]. rewrite H. lia.
Qed.

Lemma energy_pairs_In (min_e : list float) (i j : Z) (dG : float) :
  In (i, j, dG) (energy_pairs min_e)
  <-> 0 <= i /\ i < j /\ j < Z.of_nat (length min_e)
      /\ dG = PrimFloat.sub (nth (Z.to_nat j) min_e PrimFloat.nan)
                            (nth (Z.to_nat i) min_e PrimFloat.nan).
Proof.
  unfold energy_pairs, py_range, py_range2. rewrite in_flat_map. split.
  - intros [i' [Hi' H]]. apply in_map_iff in Hi'. destruct Hi' as [a [<- Ha]].
    apply in_seq in Ha. apply in_map_iff in H. destruct H as [j' [E Hj']].
    apply in_map_iff in Hj'. destruct Hj' as [b [<- Hb]]. apply in_seq in Hb.
    injection E as <- <- <-. repeat split; lia.
  - intros [Hi [Hij [Hj ->]]]. exists i. split.
    + apply in_map_iff. exists (Z.to_nat i). split; [lia|]. apply in_seq. lia.
    + apply in_map_iff. exists j. split; [reflexivity|].
      apply in_map_iff. exists (Z.to_nat (j - (i + 1))). split; [lia|].
      apply in_seq. lia.
Qed.

Lemma find_fes_minima_Some (scipy : bool) (fes_path : string)
      (fes_file : option (list string)) (threshold : float) (r : minima_set) :
  find_fes_minima scipy fes_path fes_file threshold = Ok (Some r) ->
  exists cv_vals fes_vals first rest,
    r = {| cv := map (fun i => nth i cv_vals PrimFloat.nan) (first :: rest);
           energies := map (energy_at fes_vals) (first :: rest);
           deltaG_pairs :=
             energy_pairs (map (energy_at fes_vals) (first :: rest));
           n_minima := Z.of_nat (length (first :: rest)) |}.
Proof.
  destruct fes_file as [f|]; [|discriminate].
  rewrite find_fes_minima_cases.
  destruct (load_plumed_file fes_path hash f) as [data|e|c m];
    [|discriminate|discriminate].
  unfold detected. destruct (shape1 data <? 2)%nat; [discriminate|].
  destruct (renormalized data) as [fes_vals| |]; [|discriminate|discriminate].
  unfold minima_of.
  destruct (candidate_positions scipy fes_vals) as [|first rest];
    [discriminate|].
  intros H. injection H as <-.
  now exists (map (fun r => nth 0 r PrimFloat.nan) data), fes_vals, first,
    (retained_after fes_vals threshold first rest).
Qed.

(** X10.  A result of the detector holds at least one minimum, as many
    coordinates and as many energies as [n_minima] says, and one DeltaG
    entry for each of the [n (n - 1) / 2] pairs of minima. *)
Theorem find_fes_minima_result_shape (scipy : bool) (fes_path : string)
        (fes_file : option (list string)) (threshold : float)
        (r : minima_set) :
  find_fes_minima scipy fes_path fes_file threshold = Ok (Some r) ->
  1 <= n_minima r
  /\ Z.of_nat (length (cv r)) = n_minima r
  /\ Z.of_nat (length (energies r)) = n_minima r
  /\ Z.of_nat (length (deltaG_pairs r)) = n_minima r * (n_minima r - 1) / 2.
Proof.
  intros H. apply find_fes_minima_Some in H.
  destruct H as [cv_vals [fes_vals [first [rest ->]]]].
  cbn [n_minima cv energies deltaG_pairs].
  rewrite energy_pairs_count, !length_map. repeat split.
  simpl. lia.
Qed.

(** X11.  The DeltaG entries of a result are exactly the triples
    [(i, j, energies[j] - energies[i])] with [0 <= i < j < n_minima]: the
    energy of the later minimum less that of the earlier one. *)
Theorem find_fes_minima_pairs (scipy : bool) (fes_path : string)
        (fes_file : option (list string)) (threshold : float)
        (r : minima_set) :
  find_fes_minima scipy fes_path fes_file threshold = Ok (Some r) ->
  forall i j dG,
    In (i, j, dG) (deltaG_pairs r)
    <-> 0 <= i /\ i < j /\ j < n_minima r
        /\ dG = PrimFloat.sub (nth (Z.to_nat j) (energies r) PrimFloat.nan)
                              (nth (Z.to_nat i) (energies r) PrimFloat.nan).
Proof.
  intros H i j dG. apply find_fes_minima_Some in H.
  destruct H as [cv_vals [fes_vals [first [rest ->]]]].
  cbn [n_minima energies deltaG_pairs].
  rewrite energy_pairs_In. now rewrite length_map.
Qed.

Lemma ltb_irrefl (x : float) : PrimFloat.ltb x x = false.
Proof.
  destruct (PrimFloat.ltb x x) eqn:E; [|reflexivity].
  pose proof (ltb_asym _ _ E). congruence.
Qed.

Lemma is_relmin_inside (fes : list float) (order : Z) (i : nat) :
  1 <= order -> (i < length fes)%nat ->
  is_relmin fes order i = true ->
  (0 < i)%nat /\ (i + 1 < length fes)%nat.
Proof.
  intros Ho Hi H. unfold is_relmin in H. rewrite forallb_forall in H.
  assert (H1 : In 1 (py_range2 1 (order + 1))).
  { unfold py_range2. apply in_map_iff. exists 0%nat. split; [reflexivity|].
    apply in_seq. lia. }
  specialize (H 1 H1). apply andb_prop in H. destruct H as [Hr Hl].
  unfold take_clip in Hr, Hl. split.
  - destruct i as [|i]; [|lia]. exfalso.
    replace (Z.to_nat (Z.max 0 (Z.min (Z.of_nat 0 - 1)
                                      (Z.of_nat (length fes) - 1))))
      with (Z.to_nat (Z.max 0 (Z.min (Z.of_nat 0)
                                     (Z.of_nat (length fes) - 1))))
      in Hl by lia.
    rewrite ltb_irrefl in Hl. discriminate.
  - destruct (Nat.eq_dec (i + 1) (length fes)) as [E|E]; [|lia]. exfalso.
    replace (Z.to_nat (Z.max 0 (Z.min (Z.of_nat i + 1)
                                      (Z.of_nat (length fes) - 1))))
      with (Z.to_nat (Z.max 0 (Z.min (Z.of_nat i)
                                     (Z.of_nat (length fes) - 1))))
      in Hr by lia.
    rewrite ltb_irrefl in Hr. discriminate.
Qed.

(** X12.  Neither end of the profile is ever a candidate minimum, with scipy
    or without: every candidate position lies strictly between the first
    and the last point.  Without scipy it even lies at least the half-width
    of the window away from both ends. *)
Theorem local_minima_inside (scipy : bool) (fes_vals : list float)
        (local_min_idx : list Z) :
  local_minima scipy fes_vals (half_width fes_vals) = Ok local_min_idx ->
  forall idx,
    In idx local_min_idx ->
    0 < idx /\ idx + 1 < Z.of_nat (length fes_vals)
    /\ (scipy = false ->
        half_width fes_vals <= idx
        /\ idx + half_width fes_vals < Z.of_nat (length fes_vals)).
Proof.
  rewrite local_minima_positions. intros H. injection H as <-.
  intros idx Hidx. apply in_map_iff in Hidx. destruct Hidx as [i [<- Hi]].
  pose proof (half_width_ge_3 fes_vals) as H3.
  unfold candidate_positions in Hi. destruct scipy.
  - apply filter_In in Hi. destruct Hi as [Hseq Hrel]. apply in_seq in Hseq.
    destruct (is_relmin_inside fes_vals (half_width fes_vals) i) as [Hlo Hhi];
      [lia|lia|assumption|].
    repeat split; lia.
  - apply filter_In in Hi. destruct Hi as [Hseq _]. apply in_seq in Hseq.
    repeat split; lia.
Qed.

(** X13.  Without scipy a profile of six points or fewer never shows a
    minimum: the window leaves no position to test, and the detector
    gives no result. *)
Theorem find_fes_minima_short_profile (fes_path : string) (f : list string)
        (threshold : float) (data : ndarray) :
  load_plumed_file fes_path hash f = Ok data ->
  (length data <= 6)%nat ->
  find_fes_minima false fes_path (Some f) threshold = Ok None.
Proof.
  intros Hload Hlen. rewrite find_fes_minima_cases, Hload. unfold detected.
  destruct (shape1 data <? 2)%nat eqn:Hc; [reflexivity|].
  apply Nat.ltb_ge in Hc.
  destruct (load_plumed_file_Ok _ _ _ _ Hload) as [Hne _].
  destruct (renormalized_loaded data Hne Hc) as [fes_vals [-> Hl]].
  unfold candidate_positions.
  pose proof (half_width_ge_3 fes_vals) as H3.
  replace (length fes_vals - Z.to_nat (half_width fes_vals)
           - Z.to_nat (half_width fes_vals))%nat with 0%nat by lia.
  reflexivity.
Qed.

Lemma locally_strict_is_window_min (fes : list float) (w m : nat) :
  (forall j, (m - w <= j <= m + w)%nat -> j <> m ->
             PrimFloat.ltb (energy_at fes m) (energy_at fes j) = true) ->
  (1 <= w <= m)%nat -> (m + w < length fes)%nat ->
  is_window_min fes w m = true.
Proof.
  intros Hmin Hw Hm. unfold is_window_min, window_min.
  pose proof (window_nth fes w m) as Hnth.
  assert (Hlen : length (firstn (2 * w + 1) (skipn (m - w) fes))
                 = (2 * w + 1)%nat)
    by (rewrite length_firstn, length_skipn; lia).
  set (v := energy_at fes m) in *.
  assert (Hall : Forall (fun x => x = v \/ PrimFloat.ltb v x = true)
                        (firstn (2 * w + 1) (skipn (m - w) fes))).
  { apply Forall_forall. intros x Hx.
    apply (In_nth _ _ PrimFloat.nan) in Hx. destruct Hx as [k [Hk <-]].
    rewrite Hlen in Hk. rewrite Hnth by assumption.
    destruct (Nat.eq_dec (m - w + k) m) as [->|Hne]; [now left|].
    right. apply Hmin; lia. }
  assert (Hin : In v (firstn (2 * w + 1) (skipn (m - w) fes))).
  { replace v with (nth w (firstn (2 * w + 1) (skipn (m - w) fes))
                        PrimFloat.nan).
    - apply nth_In. lia.
    - rewrite Hnth by lia. unfold v. f_equal. lia. }
  assert (Hv : PrimFloat.eqb v v = true).
  { apply (ltb_not_nan v (energy_at fes (m - 1))). apply Hmin; lia. }
  destruct (firstn (2 * w + 1) (skipn (m - w) fes)) as [|x r];
    [destruct Hin|].
  inversion Hall as [|? ? Hx Hr]; subst.
  rewrite (fold_minimum_strict v r x Hr); [exact Hv|].
  destruct Hx as [->|Hx]; [now left|].
  destruct Hin as [->|Hin]; [now left|]. right. now split.
Qed.

Lemma is_relmin_neighbours (fes : list float) (w m j : nat) :
  is_relmin fes (Z.of_nat w) m = true ->
  (w <= m)%nat -> (m + w < length fes)%nat ->
  (m - w <= j <= m + w)%nat -> j <> m ->
  PrimFloat.ltb (energy_at fes m) (energy_at fes j) = true.
Proof.
  intros H Hlo Hhi Hj Hne. unfold is_relmin in H. rewrite forallb_forall in H.
  assert (Hd : exists s, (1 <= s <= w)%nat /\ (j = m + s \/ j = m - s)%nat).
  { destruct (Nat.lt_ge_cases m j).
    - exists (j - m)%nat. lia.
    - exists (m - j)%nat. lia. }
  destruct Hd as [s [Hs Hjs]].
  assert (Hin : In (Z.of_nat s) (py_range2 1 (Z.of_nat w + 1))).
  { unfold py_range2. apply in_map_iff. exists (s - 1)%nat. split; [lia|].
    apply in_seq. lia. }
  specialize (H _ Hin). apply andb_prop in H. destruct H as [Hr Hl].
  rewrite take_clip_inside in Hr, Hl by lia.
  destruct Hjs as [->| ->].
  - replace (Z.of_nat m + Z.of_nat s) with (Z.of_nat (m + s)) in Hr by lia.
    now rewrite take_clip_inside in Hr by lia.
  - replace (Z.of_nat m - Z.of_nat s) with (Z.of_nat (m - s)) in Hl by lia.
    now rewrite take_clip_inside in Hl by lia.
Qed.

(** X14.  The two ways of detection agree on the inner candidates: a
    position that [argrelmin] reports, at least the half-width of the
    window away from both ends, is also reported by the comprehension used
    without scipy. *)
Theorem argrelmin_candidates_are_window_minima (fes_vals : list float)
        (idx : Z) :
  In idx (argrelmin fes_vals (half_width fes_vals)) ->
  half_width fes_vals <= idx ->
  idx + half_width fes_vals < Z.of_nat (length fes_vals) ->
  exists local_min_idx,
    window_minima fes_vals (half_width fes_vals) = Ok local_min_idx
    /\ In idx local_min_idx.
Proof.
  intros Hin Hlo Hhi. pose proof (half_width_ge_3 fes_vals) as H3.
  rewrite argrelmin_positions in Hin. apply in_map_iff in Hin.
  destruct Hin as [m [<- Hm]]. apply filter_In in Hm. destruct Hm as [_ Hrel].
  rewrite window_minima_positions by lia.
  eexists. split; [reflexivity|]. apply in_map. apply filter_In. split.
  - apply in_seq. lia.
  - set (w := Z.to_nat (half_width fes_vals)) in *.
    replace (half_width fes_vals) with (Z.of_nat w) in Hrel by lia.
    apply locally_strict_is_window_min; [|lia|lia].
    intros j Hj Hne.
    apply (is_relmin_neighbours fes_vals w m j); (assumption || lia).
Qed.

Lemma retained_after_incl (fes : list float) (threshold : float)
      (candidates : list nat) :
  forall anchor,
    incl (retained_after fes threshold anchor candidates) candidates
    /\ (length (retained_after fes threshold anchor candidates)
        <= length candidates)%nat.
Proof.
  induction candidates as [|idx rest IH]; intros anchor; simpl.
  - split; [apply incl_refl|lia].
  - destruct (PrimFloat.leb threshold (barrier fes anchor idx)).
    + destruct (IH idx) as [Hi Hl]. split; [|simpl; lia].
      intros x [->|Hx]; [now left|right; now apply Hi].
    + destruct (IH anchor) as [Hi Hl]. split; [|lia].
      intros x Hx. right. now apply Hi.
Qed.

Lemma retained_after_increasing (fes : list float) (threshold : float)
      (candidates : list nat) :
  forall anchor,
    increasing_from anchor candidates ->
    increasing_from anchor (retained_after fes threshold anchor candidates).
Proof.
  induction candidates as [|idx rest IH]; intros anchor H; simpl; [exact I|].
  destruct H as [Hlt Hrest].
  destruct (PrimFloat.leb threshold (barrier fes anchor idx)).
  - simpl. split; [exact Hlt|]. now apply IH.
  - apply IH. apply (increasing_from_lower idx); [lia|assumption].
Qed.

(** X15.  The filter only drops candidates: what it returns starts with the
    first candidate, holds no position that was not a candidate, no more
    positions than there were candidates, and keeps them in increasing
    order. *)
Theorem filter_loop_keeps_order (fes_vals : list float) (threshold : float)
        (first : nat) (rest : list nat) (filtered : list Z) :
  increasing_from first rest ->
  Forall (fun i => (i < length fes_vals)%nat) (first :: rest) ->
  filter_loop fes_vals threshold (map Z.of_nat rest) [Z.of_nat first]
  = Ok filtered ->
  exists kept,
    filtered = map Z.of_nat (first :: kept)
    /\ incl kept rest
    /\ (length kept <= length rest)%nat
    /\ increasing_from first kept.
Proof.
  intros Hinc Hall H. inversion Hall as [|? ? Hfirst Hrest]; subst.
  pose proof (filter_loop_retained fes_vals threshold rest [] first
                                   Hfirst Hinc Hrest) as E.
  cbn [app] in E. rewrite E in H. injection H as <-.
  exists (retained_after fes_vals threshold first rest).
  destruct (retained_after_incl fes_vals threshold rest first) as [Hi Hl].
  repeat split; try assumption. now apply retained_after_increasing.
Qed.

(** ** More on the DeltaG tracker *)


Lemma loaded_total_time (filepath : string) (f : list string) (t : ndarray) :
  load_plumed_file filepath hash f = Ok t ->
  column t 0 = Ok (map (fun r => nth 0 r PrimFloat.nan) t)
  /\ getitem (map (fun r => nth 0 r PrimFloat.nan) t) (-1)
     = Ok (last (map (fun r => nth 0 r PrimFloat.nan) t) PrimFloat.nan).
Proof.
  intros H. destruct (load_plumed_file_Ok _ _ _ _ H) as [Hne _].
  pose proof (load_plumed_file_columns _ _ _ _ H) as Hc. split.
  - replace 0 with (Z.of_nat 0) by reflexivity. apply column_inside. lia.
  - apply getitem_last. destruct t; [congruence|discriminate].
Qed.

(** X16.  With a window count of zero the tracker returns the empty series
    and does not even read the bias records; with a negative window count
    it raises the [ValueError] of [np.linspace]. *)
Theorem compute_deltaG_vs_time_no_windows (colvar_path : string)
        (colvar_file : list string) (hills_path : string)
        (hills_file : list string) (args : cli_args) (colvar : ndarray) :
  load_plumed_file colvar_path hash colvar_file = Ok colvar ->
  compute_deltaG_vs_time colvar_path colvar_file hills_path hills_file args 0
  = Ok {| times := []; deltaG := []; minima := None |}
  /\ forall n_blocks,
       n_blocks < 0 ->
       compute_deltaG_vs_time colvar_path colvar_file hills_path hills_file
                              args n_blocks
       = Raise ValueError.
Proof.
  intros H. destruct (loaded_total_time _ _ _ H) as [Hcol Hlast].
  unfold compute_deltaG_vs_time. rewrite H. cbn [bind].
  rewrite Hcol. cbn [bind]. rewrite Hlast. cbn [bind]. split.
  - reflexivity.
  - intros n_blocks Hn. unfold np_linspace.
    destruct (Z.ltb_spec n_blocks 0); [reflexivity|lia].
Qed.




Lemma rectangular_rows_width (data : ndarray) (row : list float) :
  rectangular data = true -> In row data -> length row = shape1 data.
Proof.
  destruct data as [|r rest]; [intros _ []|]. simpl. intros H [<-|Hin].
  - reflexivity.
  - rewrite forallb_forall in H. apply Nat.eqb_eq. now apply H.
Qed.

Lemma last_column (data : ndarray) :
  rectangular data = true -> (1 <= shape1 data)%nat ->
  column data (-1) = Ok (map (fun row => last row PrimFloat.nan) data).
Proof.
  intros Hrect Hc. unfold column, py_index.
  change (0 <=? -1) with false. change (-1 <? 0) with true.
  destruct (Z.leb_spec (- Z.of_nat (shape1 data)) (-1)); [|lia].
  cbn [andb bind]. f_equal. apply map_ext_in. intros row Hrow.
  pose proof (rectangular_rows_width data row Hrect Hrow) as Hw.
  replace (Z.to_nat (-1 + Z.of_nat (shape1 data)))
    with (length row - 1)%nat by lia.
  apply nth_last. destruct row; [simpl in Hw; lia|discriminate].
Qed.

(** X18.  A window whose reconstruction ends with status zero and leaves a
    loadable profile adds one entry to the series: its bound, paired with
    the largest less the smallest value of the last column of the
    profile, whatever the number of columns. *)
Theorem window_step_span (hills_path : string) (hills_file : list string)
        (args : cli_args) (acc : list (float * float)) (t_block : float)
        (hills : ndarray) (fes_lines : list string) (fes : ndarray) :
  load_plumed_file hills_path hash hills_file = Ok hills ->
  records_up_to hills t_block <> [] ->
  plumed_sum_hills (records_up_to hills t_block) (kt_option args)
  = (0, Some fes_lines) ->
  load_plumed_file (temp_fes_path t_block) hash fes_lines = Ok fes ->
  let fes_values := map (fun row => last row PrimFloat.nan) fes in
  exists top bottom,
    np_max fes_values = Ok top
    /\ np_min fes_values = Ok bottom
    /\ window_step hills_path hills_file args acc t_block
       = Ok (acc ++ [(t_block, PrimFloat.sub top bottom)]).
Proof.
  intros Hload Hrec Htool Hfes fes_values.
  destruct (load_plumed_file_Ok _ _ _ _ Hfes) as [Hne [Hrect _]].
  pose proof (load_plumed_file_columns _ _ _ _ Hfes) as Hc.
  assert (Hv : fes_values <> [])
    by (unfold fes_values; destruct fes; [congruence|discriminate]).
  destruct fes_values as [|x rest] eqn:E; [congruence|].
  exists (fold_left np_maximum rest x), (fold_left np_minimum rest x).
  split; [reflexivity|]. split; [reflexivity|].
  rewrite (window_step_loaded _ _ _ _ _ _ Hload).
  destruct (existsb _ _) eqn:Emask.
  - cbn [negb]. rewrite Htool. cbn [Z.eqb]. rewrite Hfes. cbn [bind].
    rewrite (last_column fes Hrect Hc). cbn [bind].
    fold fes_values. rewrite E. reflexivity.
  - exfalso. apply Hrec. unfold records_up_to, select_rows.
    set (mask := map _ (map _ hills)) in *.
    assert (Hnone : forall l : list (list float * bool),
               (forall p, In p l -> snd p = false) -> filter snd l = []).
    { induction l as [|p l IH]; intros Hl; [reflexivity|]. simpl.
      rewrite (Hl p) by now left. apply IH. intros q Hq. apply Hl. now right. }
    rewrite Hnone; [reflexivity|].
    intros [row b] Hp. apply in_combine_r in Hp. simpl.
    destruct b; [|reflexivity].
    assert (existsb (fun b => b) mask = true)
      by (apply existsb_exists; now exists true).
    congruence.
Qed.

(** X19.  A window leaves the series as it is, and the tracker goes on, in
    four cases: no bias record has a time up to the bound; the
    reconstruction ends with a non-zero status; it leaves no output file;
    its output has numeric lines with different numbers of tokens (the
    [ValueError] of the loader is caught). *)
Theorem window_step_skips (hills_path : string) (hills_file : list string)
        (args : cli_args) (acc : list (float * float)) (t_block : float)
        (hills : ndarray) :
  load_plumed_file hills_path hash hills_file = Ok hills ->
  records_up_to hills t_block = []
  \/ fst (plumed_sum_hills (records_up_to hills t_block) (kt_option args)) <> 0
  \/ snd (plumed_sum_hills (records_up_to hills t_block) (kt_option args)) = None
  \/ (exists fes_lines,
        snd (plumed_sum_hills (records_up_to hills t_block) (kt_option args))
        = Some fes_lines
        /\ same_token_count (parseable_lines hash fes_lines) = false) ->
  window_step hills_path hills_file args acc t_block = Ok acc.
Proof.
  intros Hload [H|[H|[H|[fes_lines [Hout Hragged]]]]];
    try (apply (window_step_skipped _ _ _ _ _ _ Hload); tauto).
  rewrite (window_step_loaded _ _ _ _ _ _ Hload).
  destruct (negb _); [reflexivity|].
  destruct (plumed_sum_hills _ _) as [rc out]. simpl in Hout. subst out.
  destruct (rc =? 0); [|reflexivity].
  rewrite load_plumed_file_rows.
  pose proof (rectangular_rows hash fes_lines) as R. rewrite Hragged in R.
  destruct (map row_of_line (parseable_lines hash fes_lines)) as [|row rows];
    [discriminate|].
  unfold np_array. rewrite R. reflexivity.
Qed.

(** X20.  A window whose reconstruction ends with status zero and leaves an
    output without any data row ends the whole tracker, whatever the
    windows before it gave and whatever the windows after it would give:
    the tracker leaves through the loader's [sys.exit(1)], with the message
    that names the temporary profile of that window. *)
Theorem compute_deltaG_vs_time_exits (colvar_path : string)
        (colvar_file : list string) (hills_path : string)
        (hills_file : list string) (args : cli_args) (n_blocks : Z)
        (colvar hills : ndarray) (before after : list float)
        (t_block : float) (acc : list (float * float))
        (fes_lines : list string) :
  load_plumed_file colvar_path hash colvar_file = Ok colvar ->
  (let total_time :=
     last (map (fun r => nth 0 r PrimFloat.nan) colvar) PrimFloat.nan in
   np_linspace (PrimFloat.div total_time (float_of_Z n_blocks))
               total_time n_blocks
   = Ok (before ++ t_block :: after)) ->
  window_loop hills_path hills_file args before [] = Ok acc ->
  load_plumed_file hills_path hash hills_file = Ok hills ->
  records_up_to hills t_block <> [] ->
  plumed_sum_hills (records_up_to hills t_block) (kt_option args)
  = (0, Some fes_lines) ->
  parseable_lines hash fes_lines = [] ->
  compute_deltaG_vs_time colvar_path colvar_file hills_path hills_file
                         args n_blocks
  = SysExit 1 (no_data_message (temp_fes_path t_block)).
Proof.
  intros Hcolvar Hbounds Hbefore Hhills Hrec Htool Hempty.
  destruct (loaded_total_time _ _ _ Hcolvar) as [Hcol Hlast].
  unfold compute_deltaG_vs_time. rewrite Hcolvar. cbn [bind].
  rewrite Hcol. cbn [bind]. rewrite Hlast. cbn [bind].
  cbv zeta in Hbounds. rewrite Hbounds. cbn [bind].
  rewrite (window_loop_exits hills_path hills_file args before after t_block
             [] acc (no_data_message (temp_fes_path t_block)) Hbefore).
  - reflexivity.
  - apply (window_step_exits _ _ _ _ _ hills fes_lines); assumption.
Qed.

(** ** Facts on the derived data files *)

Lemma analyze_hills_convergence_Ok (hills_path : string)
      (hills_file : list string) (r : hills_convergence) :
  analyze_hills_convergence hills_path hills_file = Ok r ->
  exists hills,
    load_plumed_file hills_path hash hills_file = Ok hills
    /\ n_gaussians r = Z.of_nat (length hills)
    /\ heights r
       = map (fun row => nth (height_column (shape1 hills)) row PrimFloat.nan)
             hills
    /\ length (time r) = length hills.
Proof.
  unfold analyze_hills_convergence.
  destruct (load_plumed_file hills_path hash hills_file) as [hills| |] eqn:E;
    cbn [bind]; try discriminate.
  destruct (load_plumed_file_Ok _ _ _ _ E) as [Hne _].
  pose proof (load_plumed_file_columns _ _ _ _ E) as Hc.
  rewrite (analyze_table_columns hills Hne Hc).
  intros H. injection H as <-. exists hills. cbn.
  repeat split. now rewrite length_map.
Qed.

(** X21.  The file of the heights has its header and one line for each
    record of the bias file.  The file of DeltaG is written if and only if
    the tracker's series holds at least one span, and then has its header
    and one line for each span. *)
Theorem save_data_files_lines (output_dir hills_path colvar_path : string)
        (hills_file colvar_file : list string) (args : cli_args)
        (n_blocks : Z) (hills_conv : hills_convergence)
        (series : deltaG_result) :
  analyze_hills_convergence hills_path hills_file = Ok hills_conv ->
  compute_deltaG_vs_time colvar_path colvar_file hills_path hills_file
                         args n_blocks = Ok series ->
  exists heights_lines,
    hd_error (save_data_files output_dir hills_conv series)
    = Some (os_path_join output_dir "gaussian_heights.dat", heights_lines)
    /\ Z.of_nat (length heights_lines) = 1 + n_gaussians hills_conv
    /\ match deltaG series with
       | [] => tl (save_data_files output_dir hills_conv series) = []
       | _ =>
           exists deltaG_lines,
             tl (save_data_files output_dir hills_conv series)
             = [(os_path_join output_dir "deltaG_vs_time.dat", deltaG_lines)]
             /\ length deltaG_lines = S (length (deltaG series))
       end.
Proof.
  intros Ha Hc.
  destruct (analyze_hills_convergence_Ok _ _ _ Ha) as [hills [_ [Hn [Hh Ht]]]].
  assert (Hlen : length (times series) = length (deltaG series)).
  { unfold compute_deltaG_vs_time in Hc.
    destruct (load_plumed_file colvar_path hash colvar_file) as [colvar| |];
      cbn [bind] in Hc; try discriminate.
    destruct (column colvar 0) as [ts| |]; cbn [bind] in Hc; try discriminate.
    destruct (getitem ts (-1)) as [total| |]; cbn [bind] in Hc;
      try discriminate.
    destruct (np_linspace _ total n_blocks) as [block_times| |];
      cbn [bind] in Hc; try discriminate.
    destruct (window_loop _ _ _ _ _) as [out| |]; cbn [bind] in Hc;
      try discriminate.
    injection Hc as <-. cbn. now rewrite !length_map. }
  unfold save_data_files. eexists. split; [reflexivity|]. split.
  - cbn [length]. rewrite length_map, length_combine, Ht, Hh, length_map, Hn.
    lia.
  - cbn [app tl]. destruct (deltaG series) as [|x rest] eqn:E; [reflexivity|].
    eexists. split; [reflexivity|].
    cbn [length]. rewrite length_map, length_combine, Hlen. simpl. lia.
Qed.

(** ** Facts on [run_sum_hills] *)

Lemma string_app_assoc (a b c : string) :
  ((a ++ b) ++ c = a ++ (b ++ c))%string.
Proof.
  induction a as [|x a IH]; simpl; [reflexivity|]. now rewrite IH.
Qed.

Lemma metad_prefix (output_dir : string) :
  (os_path_join output_dir "metad" ++ "_fes.dat")%string
  = os_path_join output_dir "metad_fes.dat".
Proof.
  unfold os_path_join. cbn [startswith Ascii.eqb Bool.eqb andb].
  destruct (str_empty output_dir || endswith output_dir "/");
    rewrite ?string_app_assoc; reflexivity.
Qed.

(** X22.  The reconstruction over the whole trajectory that [main] asks for
    writes to the very path the detector reads:
    [os.path.join(dir, "metad") + "_fes.dat"] is
    [os.path.join(dir, "metad_fes.dat")] for every output directory.  The
    call never raises; it returns that one path when the process ends with
    status zero and the empty list otherwise. *)
Theorem run_sum_hills_full (hills_file output_dir : string) (args : cli_args) :
  let fes_main := os_path_join output_dir "metad_fes.dat" in
  let returncode :=
    subprocess_run 0 (sum_hills_command hills_file fes_main args []) in
  run_sum_hills hills_file (os_path_join output_dir "metad") args None
  = inr (if returncode =? 0 then [fes_main] else []).
Proof.
  intros fes_main returncode. unfold run_sum_hills.
  rewrite metad_prefix. fold fes_main. fold returncode.
  now destruct (returncode =? 0).
Qed.




(** ** Facts on [main] *)

Lemma verdict_section_length (ratio : float) :
  length (verdict_section ratio) = 2%nat.
Proof.
  unfold verdict_section.
  destruct (PrimFloat.ltb ratio 0.01); [reflexivity|].
  now destruct (PrimFloat.ltb ratio 0.1).
Qed.

Lemma save_results_completed (opts : options) (args : cli_args)
      (hills_conv : hills_convergence) (deltaG_data : deltaG_result) :
  exists out,
    save_results opts args hills_conv deltaG_data = Completed out
    /\ data_files out
       = save_data_files (opt_output_dir opts) hills_conv deltaG_data
    /\ report_file out
       = (os_path_join (opt_output_dir opts) "convergence_report.txt",
          save_convergence_report hills_conv deltaG_data args)
    /\ block_statistics out
       = if 10 <? n_gaussians hills_conv
         then match block_averaging (heights hills_conv) 5 with
              | Ok statistics => Some statistics
              | _ => None
              end
         else None.
Proof.
  unfold save_results. destruct (10 <? n_gaussians hills_conv).
  - unfold block_averaging. cbn [Z.eqb].
    destruct (_ =? 0); cbn [and_then]; eexists; repeat split.
  - eexists; repeat split.
Qed.

Lemma main_completed (opts : options) (scipy : bool)
      (hills_file colvar_file : list string) (plumed_help : option Z)
      (fes_main_file : option (list string)) (out : main_output) :
  main opts scipy hills_file colvar_file plumed_help fes_main_file
  = Completed out ->
  exists hills_conv deltaG_data,
    analyze_hills_convergence (opt_hills opts) hills_file = Ok hills_conv
    /\ save_results opts
         {| temp := opt_temp opts;
            biasfactor := opt_biasfactor opts;
            kt := PrimFloat.mul kB (opt_temp opts) |}
         hills_conv deltaG_data
       = Completed out.
Proof.
  unfold main.
  destruct (analyze_hills_convergence (opt_hills opts) hills_file)
    as [hills_conv| |]; cbn [and_then]; try discriminate.
  destruct (opt_no_fes opts); [intros H; now exists hills_conv, no_deltaG|].
  destruct plumed_help as [status|]; [|discriminate].
  destruct (status =? 0); [|intros H; now exists hills_conv, no_deltaG].
  destruct (match given (opt_colvar opts) with
            | Some colvar => _
            | None => Ok no_deltaG
            end) as [deltaG_data| |]; cbn [and_then]; try discriminate.
  destruct (find_fes_minima _ _ _ _) as [found| |]; cbn [and_then];
    try discriminate.
  intros H. eexists hills_conv, _. split; [reflexivity|exact H].
Qed.

(** X24.  When the bias-record file holds no data row, [main] exits with
    status 1 and the message that names this file, whatever the other
    options are; it returns no result. *)
Theorem main_exits_without_data (opts : options) (scipy : bool)
        (hills_file colvar_file : list string) (plumed_help : option Z)
        (fes_main_file : option (list string)) :
  parseable_lines hash hills_file = [] ->
  main opts scipy hills_file colvar_file plumed_help fes_main_file
  = Exited 1 (no_data_message (opt_hills opts)).
Proof.
  intros H. unfold main, analyze_hills_convergence.
  rewrite load_plumed_file_rows, H. reflexivity.
Qed.

(** X25.  With [--no-fes], or when [plumed --help] starts and ends with a
    status that is not zero, [main] completes on every bias-record file
    that loads: it writes the file of the heights and no file of DeltaG,
    and a report of nineteen writes that has no DeltaG line and no list
    of minima. *)
Theorem main_bias_statistics_only (opts : options) (scipy : bool)
        (hills_file colvar_file : list string) (plumed_help : option Z)
        (fes_main_file : option (list string)) (hills : ndarray) :
  load_plumed_file (opt_hills opts) hash hills_file = Ok hills ->
  opt_no_fes opts = true
  \/ (exists status, plumed_help = Some status /\ status <> 0) ->
  exists out hills_conv,
    main opts scipy hills_file colvar_file plumed_help fes_main_file
    = Completed out
    /\ analyze_hills_convergence (opt_hills opts) hills_file = Ok hills_conv
    /\ map fst (data_files out)
       = [os_path_join (opt_output_dir opts) "gaussian_heights.dat"]
    /\ snd (report_file out)
       = save_convergence_report
           hills_conv no_deltaG
           {| temp := opt_temp opts;
              biasfactor := opt_biasfactor opts;
              kt := PrimFloat.mul kB (opt_temp opts) |}
    /\ length (snd (report_file out)) = 19%nat.
Proof.
  intros Hload Hcase.
  destruct (load_plumed_file_Ok _ _ _ _ Hload) as [Hne _].
  pose proof (load_plumed_file_columns _ _ _ _ Hload) as Hc.
  pose proof (analyze_table_columns hills Hne Hc) as Ha. cbv zeta in Ha.
  set (args := {| temp := opt_temp opts;
                  biasfactor := opt_biasfactor opts;
                  kt := PrimFloat.mul kB (opt_temp opts) |}).
  assert (Hmain : exists hills_conv,
             analyze_hills_convergence (opt_hills opts) hills_file
             = Ok hills_conv
             /\ main opts scipy hills_file colvar_file plumed_help
                     fes_main_file
                = save_results opts args hills_conv no_deltaG).
  { eexists. unfold main, analyze_hills_convergence. rewrite Hload.
    cbn [bind]. rewrite Ha. split; [reflexivity|]. cbn [and_then].
    destruct Hcase as [->|[status [-> Hs]]]; [reflexivity|].
    destruct (opt_no_fes opts); [reflexivity|].
    destruct (Z.eqb_spec status 0); [congruence|reflexivity]. }
  destruct Hmain as [hills_conv [Hconv Hmain]].
  destruct (save_results_completed opts args hills_conv no_deltaG)
    as [out [Hout [Hfiles [Hreport _]]]].
  exists out, hills_conv. rewrite Hmain.
  split; [exact Hout|]. split; [exact Hconv|].
  rewrite Hfiles, Hreport. split; [reflexivity|]. split; [reflexivity|].
  cbn [snd]. unfold save_convergence_report. rewrite !length_app.
  rewrite verdict_section_length. reflexivity.
Qed.

(** X26.  When the reconstruction is asked for and the program [plumed]
    cannot be started, [main] does not fall back on the bias statistics: on
    a bias-record file that loads it fails with [FileNotFoundError] and
    returns no result. *)
Theorem main_needs_plumed (opts : options) (scipy : bool)
        (hills_file colvar_file : list string)
        (fes_main_file : option (list string)) (hills : ndarray) :
  load_plumed_file (opt_hills opts) hash hills_file = Ok hills ->
  opt_no_fes opts = false ->
  main opts scipy hills_file colvar_file None fes_main_file
  = Failed FileNotFoundError.
Proof.
  intros Hload Hfes.
  destruct (load_plumed_file_Ok _ _ _ _ Hload) as [Hne _].
  pose proof (load_plumed_file_columns _ _ _ _ Hload) as Hc.
  unfold main, analyze_hills_convergence. rewrite Hload. cbn [bind].
  rewrite (analyze_table_columns hills Hne Hc). cbn [and_then].
  now rewrite Hfes.
Qed.

(** X27.  A run of [main] that completes reports block statistics of the
    heights if and only if the bias-record file has more than ten records;
    they are then made of exactly five block means, each over a fifth
    (rounded down) of the heights, and their mean. *)
Theorem main_block_statistics (opts : options) (scipy : bool)
        (hills_file colvar_file : list string) (plumed_help : option Z)
        (fes_main_file : option (list string)) (out : main_output)
        (hills : ndarray) :
  main opts scipy hills_file colvar_file plumed_help fes_main_file
  = Completed out ->
  load_plumed_file (opt_hills opts) hash hills_file = Ok hills ->
  let heights :=
    map (fun row => nth (height_column (shape1 hills)) row PrimFloat.nan)
        hills in
  if (10 <? length hills)%nat
  then exists stderr,
         block_statistics out
         = Some (np_mean (run_means heights (length hills / 5) 5), stderr,
                 run_means heights (length hills / 5) 5)
         /\ length (run_means heights (length hills / 5) 5) = 5%nat
         /\ (2 <= length hills / 5)%nat
  else block_statistics out = None.
Proof.
  intros Hmain Hload heights.
  destruct (main_completed _ _ _ _ _ _ _ Hmain) as [hills_conv [d [Ha Hs]]].
  destruct (analyze_hills_convergence_Ok _ _ _ Ha) as [hills' [Hl [Hn [Hh _]]]].
  rewrite Hload in Hl. injection Hl as <-. fold heights in Hh.
  destruct (save_results_completed
              opts {| temp := opt_temp opts;
                      biasfactor := opt_biasfactor opts;
                      kt := PrimFloat.mul kB (opt_temp opts) |}
              hills_conv d) as [out' [Hout [_ [_ Hb]]]].
  rewrite Hs in Hout. injection Hout as <-. rewrite Hb, Hn, Hh.
  assert (Hlen : length heights = length hills) by apply length_map.
  destruct (Nat.ltb_spec 10 (length hills)) as [Hgt|Hle].
  - destruct (Z.ltb_spec 10 (Z.of_nat (length hills))); [|lia].
    rewrite (block_averaging_runs heights 5) by lia.
    change (Z.to_nat 5) with 5%nat. rewrite Hlen.
    eexists. split; [reflexivity|]. split.
    + unfold run_means. now rewrite length_map, length_seq.
    + apply Nat.div_le_lower_bound; lia.
  - destruct (Z.ltb_spec 10 (Z.of_nat (length hills))); [lia|reflexivity].
Qed.

(** X28.  When the reconstruction runs and a COLVAR file is given, an exit
    of the tracker is the exit of [main]: it leaves with the same status
    and message, and returns no result, although the analysis of the bias
    records had succeeded. *)
Theorem main_exits_with_tracker (opts : options) (scipy : bool)
        (hills_file colvar_file : list string)
        (fes_main_file : option (list string)) (hills : ndarray)
        (colvar : string) (code : Z) (msg : string) :
  load_plumed_file (opt_hills opts) hash hills_file = Ok hills ->
  opt_no_fes opts = false ->
  given (opt_colvar opts) = Some colvar ->
  compute_deltaG_vs_time
    colvar colvar_file (opt_hills opts) hills_file
    {| temp := opt_temp opts;
       biasfactor := opt_biasfactor opts;
       kt := PrimFloat.mul kB (opt_temp opts) |}
    (opt_n_blocks opts)
  = SysExit code msg ->
  main opts scipy hills_file colvar_file (Some 0) fes_main_file
  = Exited code msg.
Proof.
  intros Hload Hfes Hcolvar Htracker.
  destruct (load_plumed_file_Ok _ _ _ _ Hload) as [Hne _].
  pose proof (load_plumed_file_columns _ _ _ _ Hload) as Hc.
  unfold main, analyze_hills_convergence. rewrite Hload. cbn [bind].
  rewrite (analyze_table_columns hills Hne Hc). cbn [and_then].
  rewrite Hfes, Hcolvar. cbn [Z.eqb]. rewrite Htracker. reflexivity.
Qed.

(** X29.  A profile [metad_fes.dat] whose numeric lines carry different
    numbers of tokens is not skipped: when the reconstruction runs, the
    [ValueError] of the detector goes through [main], which returns no
    result. *)
Theorem main_fails_on_ragged_profile (opts : options) (scipy : bool)
        (hills_file colvar_file fes_lines : list string) (hills : ndarray) :
  load_plumed_file (opt_hills opts) hash hills_file = Ok hills ->
  opt_no_fes opts = false ->
  given (opt_colvar opts) = None ->
  same_token_count (parseable_lines hash fes_lines) = false ->
  main opts scipy hills_file colvar_file (Some 0) (Some fes_lines)
  = Failed (Uncaught ValueError).
Proof.
  intros Hload Hfes Hcolvar Hragged.
  destruct (load_plumed_file_Ok _ _ _ _ Hload) as [Hne _].
  pose proof (load_plumed_file_columns _ _ _ _ Hload) as Hc.
  unfold main, analyze_hills_convergence. rewrite Hload. cbn [bind].
  rewrite (analyze_table_columns hills Hne Hc). cbn [and_then].
  rewrite Hfes, Hcolvar. cbn [Z.eqb and_then].
  rewrite find_fes_minima_cases, load_plumed_file_rows.
  pose proof (rectangular_rows hash fes_lines) as R. rewrite Hragged in R.
  destruct (map row_of_line (parseable_lines hash fes_lines)) as [|row rows];
    [discriminate|].
  unfold np_array. rewrite R. reflexivity.
Qed.

End Analysis.

(** * The statements on concrete inputs *)

(** ** Witnesses *)

Lemma loaded_table_shape_witness :
  sample_hills_table <> []
  /\ exists c, Forall (fun row => length row = c) sample_hills_table.
Proof.
  apply (loaded_table_shape float_of_decimal "HILLS" "#" sample_hills_file).
  vm_compute. reflexivity.
Defined.

Lemma load_plumed_file_contract_witness :
  exists t,
    load_plumed_file float_of_decimal "HILLS" "#" sample_hills_file = Ok t
    /\ length t = length (parseable_lines float_of_decimal "#" sample_hills_file).
Proof.
  destruct (load_plumed_file_contract float_of_decimal "HILLS" "#"
              sample_hills_file) as [_ [_ [_ [H _]]]].
  apply H; vm_compute; [discriminate|reflexivity].
Defined.

Lemma block_averaging_blocks_witness :
  exists block_means,
    block_averaging [1; 2; 3; 4; 100]%float 2
    = Ok (np_mean block_means,
          PrimFloat.div (np_std block_means) (PrimFloat.sqrt (float_of_Z 2)),
          block_means)
    /\ length block_means = 2%nat
    /\ forall i, (i < 2)%nat ->
         length (block_run [1; 2; 3; 4; 100]%float 2 i) = 2%nat
         /\ nth i block_means PrimFloat.nan
            = np_mean (block_run [1; 2; 3; 4; 100]%float 2 i).
Proof.
  apply (block_averaging_blocks [1; 2; 3; 4; 100]%float 2). simpl. lia.
Defined.

Lemma block_averaging_short_series_witness :
  block_averaging [1; 2; 3]%float 5
  = Ok (np_mean [1; 2; 3]%float, np_std [1; 2; 3]%float,
        [np_mean [1; 2; 3]%float]).
Proof.
  apply (block_averaging_short_series [1; 2; 3]%float 5). simpl. lia.
Defined.

Lemma block_averaging_ignores_tail_witness :
  block_averaging [1; 2; 3; 4; 7]%float 2
  = block_averaging [1; 2; 3; 4; 100]%float 2.
Proof.
  apply (proj1 block_averaging_ignores_tail);
    [simpl; lia|reflexivity|reflexivity].
Defined.

Lemma filter_loop_rule_witness :
  filter_loop two_wells 2%float (map Z.of_nat [9%nat]) [Z.of_nat 3]
  = Ok (map Z.of_nat (3%nat :: retained_after two_wells 2%float 3 [9%nat]))
  /\ separated two_wells 2%float 3 (retained_after two_wells 2%float 3 [9%nat]).
Proof.
  apply (filter_loop_rule two_wells 2%float 3 [9%nat]).
  - simpl. lia.
  - repeat constructor; simpl; lia.
Defined.

Lemma find_fes_minima_unimodal_witness :
  exists fes_vals,
    renormalized parabola_table = Ok fes_vals
    /\ local_minima true fes_vals (half_width fes_vals)
       = Ok (map Z.of_nat (candidate_positions true fes_vals))
    /\ (find_fes_minima float_of_decimal true "fes.dat" (Some parabola_file)
                        2.5%float = Ok None
        <-> candidate_positions true fes_vals = [])
    /\ (forall m,
          strict_minimum_at fes_vals m ->
          half_width fes_vals <= Z.of_nat m ->
          Z.of_nat m + half_width fes_vals < Z.of_nat (length fes_vals) ->
          In m (candidate_positions true fes_vals)
          /\ exists r,
               find_fes_minima float_of_decimal true "fes.dat"
                               (Some parabola_file) 2.5%float = Ok (Some r)
               /\ 1 <= n_minima r).
Proof.
  apply (find_fes_minima_unimodal float_of_decimal true "fes.dat"
           parabola_file 2.5%float parabola_table).
  - vm_compute. reflexivity.
  - simpl. lia.
Defined.

Lemma analyze_table_statistics_witness :
  analyze_table sample_hills_table
  = Ok {| time := [0; 1; 2]%float;
          heights := [1.2; 1.1; 0.9]%float;
          n_gaussians := 3;
          h_initial := 1.2%float;
          h_final := 0.9%float;
          h_ratio := PrimFloat.div 0.9 1.2;
          total_time_ps := 2%float |}.
Proof.
  apply (analyze_table_statistics sample_hills_table).
  - discriminate.
  - simpl. lia.
Defined.

Lemma report_stability_verdict_witness :
  let spans := [10; 11; 10.5; 10.6]%float in
  let report :=
    save_convergence_report sample_hills_conv (spans_result spans) sample_args in
  (In stable_line report
   <-> PrimFloat.ltb (np_std [11; 10.5; 10.6]%float) 2 = true)
  /\ (In unstable_line report
      <-> PrimFloat.ltb (np_std [11; 10.5; 10.6]%float) 2 = false).
Proof.
  apply (report_stability_verdict sample_hills_conv
           (spans_result [10; 11; 10.5; 10.6]%float) sample_args).
  simpl. lia.
Defined.

(** ** Counterexamples to the statements as the specification words them *)

(** C1 as worded.  On [two_wells] with threshold 2.5 the candidates are the
    positions 3 and 9.  The largest energy between them is 5, which is at
    least the threshold, so the worded rule retains position 9; the code
    compares 5 - 3 = 2 with the threshold and drops it. *)
Lemma peak_rule_differs :
  local_minima true two_wells (half_width two_wells) = Ok [3; 9]
  /\ local_minima false two_wells (half_width two_wells) = Ok [3; 9]
  /\ max_between two_wells 3 9 = 5%float
  /\ PrimFloat.leb 2.5 (max_between two_wells 3 9) = true
  /\ retained_by_peak two_wells 2.5 3 [9%nat] = [9%nat]
  /\ barrier two_wells 3 9 = 2%float
  /\ filter_loop two_wells 2.5 [9] [3] = Ok [3].
Proof.
  repeat split; vm_compute; reflexivity.
Qed.

(** C4 as worded.  With two blocks of means 1.5 and 3.5 the sample standard
    deviation is the square root of 2, which divided by the square root of
    2 gives 1; the standard error returned is 1 divided by the square root
    of 2. *)
Lemma standard_error_is_not_sample_based :
  block_averaging [1; 2; 3; 4; 100]%float 2
  = Ok (2.5, 0.70710678118654746, [1.5; 3.5])%float
  /\ np_std [1.5; 3.5]%float = 1%float
  /\ PrimFloat.div (sample_std [1.5; 3.5]%float) (PrimFloat.sqrt (float_of_Z 2))
     = 1%float.
Proof.
  repeat split; vm_compute; reflexivity.
Qed.

(** C3 as worded.  Both lines of [ragged_file] are numeric data lines, so
    two rows are collected; yet no table is returned: building the array
    raises [ValueError]. *)
Lemma ragged_file_is_refused :
  parseable_lines float_of_decimal "#" ragged_file = ragged_file
  /\ load_plumed_file float_of_decimal "HILLS" "#" ragged_file = Raise ValueError.
Proof.
  split; vm_compute; reflexivity.
Qed.

(** C5 as worded.  With an initial height of -1 and a final height of 0.5
    the quotient final / initial is -0.5 and the initial height is not zero,
    but the ratio returned is 0.  With an initial height of 1 and a final
    height of 0 the ratio is 0 as well, again with an initial height that
    is not zero. *)
Lemma negative_height_ratio :
  (exists r,
      analyze_table negative_height_table = Ok r
      /\ h_initial r = (-1)%float
      /\ h_final r = 0.5%float
      /\ PrimFloat.eqb (h_initial r) PrimFloat.zero = false
      /\ PrimFloat.div (h_final r) (h_initial r) = (-0.5)%float
      /\ h_ratio r = 0%float)
  /\ (exists r,
        analyze_table vanishing_height_table = Ok r
        /\ h_initial r = 1%float
        /\ PrimFloat.eqb (h_initial r) PrimFloat.zero = false
        /\ h_ratio r = 0%float).
Proof.
  split; (eexists; split; [vm_compute; reflexivity|]);
    repeat split; vm_compute; reflexivity.
Qed.

(** C7 as worded.  On the parabola the detector finds a candidate, the
    global minimum at coordinate 0, and returns one minimum instead of the
    unimodal result, with scipy and without. *)
Lemma parabola_has_one_minimum :
  find_fes_minima float_of_decimal true "fes.dat" (Some parabola_file) 2.5%float
  = Ok (Some {| cv := [0%float];
                energies := [0%float];
                deltaG_pairs := [];
                n_minima := 1 |})
  /\ find_fes_minima float_of_decimal false "fes.dat" (Some parabola_file)
                     2.5%float
     = Ok (Some {| cv := [0%float];
                   energies := [0%float];
                   deltaG_pairs := [];
                   n_minima := 1 |}).
Proof.
  split; vm_compute; reflexivity.
Qed.

(** C8 as worded.  Three window spans are a non-empty sequence, and the
    standard deviation of the last three is 0, below 2; the report has
    neither verdict line. *)
Lemma three_spans_no_verdict :
  let spans := [1; 1; 1]%float in
  let report :=
    save_convergence_report sample_hills_conv (spans_result spans) sample_args in
  PrimFloat.ltb (np_std spans) 2 = true
  /\ deltaG_section spans
     = [[Lit "
  DeltaG (ultimo bloque): "; Fmt ".2f" 1%float; Lit " kJ/mol
"]]
  /\ ~ In stable_line report
  /\ ~ In unstable_line report.
Proof.
  cbv zeta. split; [vm_compute; reflexivity|]. split; [reflexivity|].
  split; intros H; vm_compute in H;
    repeat (destruct H as [H|H]; [discriminate|]); destruct H.
Qed.

(** ** The defect behind C2 *)

(** C2 (defect of the code).  The trajectory lasts 10 ps and is cut into two
    windows, with bounds 5 and 10.  For the first window the external
    program ends with status zero and writes a file without any data row.
    The claim asks for this window to be skipped and for the second one to
    yield its span, 3.5; that is what happens when the program fails by its
    exit status.  Here the loader's [sys.exit(1)] goes through
    [except Exception] and ends the whole analysis. *)
Theorem tracker_exits_on_empty_window_output :
  compute_deltaG_vs_time float_of_decimal header_only_tool
                         "COLVAR" sample_colvar_file
                         "HILLS" two_hills_file sample_args 2
  = SysExit 1 "ERROR: No se encontraron datos en /tmp/fes_block_5.dat"
  /\ compute_deltaG_vs_time float_of_decimal failing_tool
                            "COLVAR" sample_colvar_file
                            "HILLS" two_hills_file sample_args 2
     = Ok {| times := [10%float]; deltaG := [3.5%float]; minima := None |}.
Proof.
  split; vm_compute; reflexivity.
Qed.

(** ** Witnesses of the further properties *)

Lemma load_plumed_file_skips_line_witness :
  load_plumed_file float_of_decimal "HILLS" "#"
                   (["1 2
"] ++ "# a comment
" :: ["3 4
"])
  = load_plumed_file float_of_decimal "HILLS" "#" (["1 2
"] ++ ["3 4
"]).
Proof.
  apply (load_plumed_file_skips_line float_of_decimal "HILLS" "#").
  vm_compute. reflexivity.
Defined.

Lemma load_plumed_file_app_witness :
  load_plumed_file float_of_decimal "HILLS" "#"
                   (sample_hills_file ++ sample_hills_file)
  = Ok (sample_hills_table ++ sample_hills_table).
Proof.
  apply (load_plumed_file_app float_of_decimal "HILLS" "#");
    vm_compute; reflexivity.
Defined.

Lemma analyze_table_single_column_witness :
  exists r, analyze_table single_column_table = Ok r /\ heights r = time r.
Proof.
  apply (analyze_table_single_column single_column_table);
    [discriminate|reflexivity].
Defined.

Lemma nonpositive_initial_height_reads_converged_witness :
  exists r,
    analyze_table negative_height_table = Ok r
    /\ h_ratio r = PrimFloat.zero
    /\ verdict_section (h_ratio r) = converged_lines.
Proof.
  apply (nonpositive_initial_height_reads_converged negative_height_table).
  - discriminate.
  - simpl. lia.
  - vm_compute. reflexivity.
Defined.

Lemma report_without_verdict_witness :
  let report :=
    save_convergence_report sample_hills_conv (spans_result [1; 1; 1]%float)
                            sample_args in
  ~ In stable_line report
  /\ ~ In unstable_line report
  /\ (deltaG (spans_result [1; 1; 1]%float) = [] ->
      deltaG_section (deltaG (spans_result [1; 1; 1]%float)) = []).
Proof.
  apply (report_without_verdict sample_hills_conv
           (spans_result [1; 1; 1]%float) sample_args).
  simpl. lia.
Defined.

Lemma find_fes_minima_result_shape_witness :
  1 <= n_minima two_wells_minima
  /\ Z.of_nat (length (cv two_wells_minima)) = n_minima two_wells_minima
  /\ Z.of_nat (length (energies two_wells_minima)) = n_minima two_wells_minima
  /\ Z.of_nat (length (deltaG_pairs two_wells_minima))
     = n_minima two_wells_minima * (n_minima two_wells_minima - 1) / 2.
Proof.
  apply (find_fes_minima_result_shape float_of_decimal true "fes.dat"
           (Some two_wells_file) 2%float two_wells_minima).
  vm_compute. reflexivity.
Defined.

Lemma find_fes_minima_pairs_witness :
  In (0, 1, 3%float) (deltaG_pairs two_wells_minima)
  <-> 0 <= 0 /\ 0 < 1 /\ 1 < n_minima two_wells_minima
      /\ 3%float
         = PrimFloat.sub
             (nth (Z.to_nat 1) (energies two_wells_minima) PrimFloat.nan)
             (nth (Z.to_nat 0) (energies two_wells_minima) PrimFloat.nan).
Proof.
  apply (find_fes_minima_pairs float_of_decimal true "fes.dat"
           (Some two_wells_file) 2%float two_wells_minima).
  vm_compute. reflexivity.
Defined.

Lemma local_minima_inside_witness :
  0 < 9 /\ 9 + 1 < Z.of_nat (length two_wells)
  /\ (false = false ->
      half_width two_wells <= 9
      /\ 9 + half_width two_wells < Z.of_nat (length two_wells)).
Proof.
  apply (local_minima_inside false two_wells [3; 9]).
  - vm_compute. reflexivity.
  - simpl. auto.
Defined.

Lemma find_fes_minima_short_profile_witness :
  find_fes_minima float_of_decimal false "fes.dat" (Some sample_profile_lines)
                  2.5%float
  = Ok None.
Proof.
  apply (find_fes_minima_short_profile float_of_decimal "fes.dat"
           sample_profile_lines 2.5%float sample_profile_table).
  - vm_compute. reflexivity.
  - simpl. lia.
Defined.

Lemma argrelmin_candidates_are_window_minima_witness :
  exists local_min_idx,
    window_minima two_wells (half_width two_wells) = Ok local_min_idx
    /\ In 3 local_min_idx.
Proof.
  apply (argrelmin_candidates_are_window_minima two_wells 3).
  - vm_compute. auto.
  - vm_compute. discriminate.
  - vm_compute. reflexivity.
Defined.

Lemma filter_loop_keeps_order_witness :
  exists kept,
    [3] = map Z.of_nat (3%nat :: kept)
    /\ incl kept [9%nat]
    /\ (length kept <= length [9%nat])%nat
    /\ increasing_from 3 kept.
Proof.
  apply (filter_loop_keeps_order two_wells 2.5%float 3 [9%nat] [3]).
  - simpl. lia.
  - repeat constructor; simpl; lia.
  - vm_compute. reflexivity.
Defined.

Lemma compute_deltaG_vs_time_no_windows_witness :
  compute_deltaG_vs_time float_of_decimal failing_tool
                         "COLVAR" sample_colvar_file "HILLS" two_hills_file
                         sample_args 0
  = Ok {| times := []; deltaG := []; minima := None |}
  /\ forall n_blocks,
       n_blocks < 0 ->
       compute_deltaG_vs_time float_of_decimal failing_tool
                              "COLVAR" sample_colvar_file "HILLS"
                              two_hills_file sample_args n_blocks
       = Raise ValueError.
Proof.
  apply (compute_deltaG_vs_time_no_windows float_of_decimal failing_tool
           "COLVAR" sample_colvar_file "HILLS" two_hills_file sample_args
           sample_colvar_table).
  vm_compute. reflexivity.
Defined.


Lemma window_step_span_witness :
  let fes_values :=
    map (fun row => last row PrimFloat.nan) sample_profile_table in
  exists top bottom,
    np_max fes_values = Ok top
    /\ np_min fes_values = Ok bottom
    /\ window_step float_of_decimal header_only_tool "HILLS" two_hills_file
                   sample_args [] 10%float
       = Ok ([] ++ [(10%float, PrimFloat.sub top bottom)]).
Proof.
  apply (window_step_span float_of_decimal header_only_tool "HILLS"
           two_hills_file sample_args [] 10%float two_hills_table
           sample_profile_lines sample_profile_table).
  - vm_compute. reflexivity.
  - vm_compute. discriminate.
  - vm_compute. reflexivity.
  - vm_compute. reflexivity.
Defined.

Lemma window_step_skips_witness :
  window_step float_of_decimal failing_tool "HILLS" two_hills_file
              sample_args [] 5%float
  = Ok [].
Proof.
  apply (window_step_skips float_of_decimal failing_tool "HILLS"
           two_hills_file sample_args [] 5%float two_hills_table).
  - vm_compute. reflexivity.
  - right. left. vm_compute. discriminate.
Defined.

Lemma compute_deltaG_vs_time_exits_witness :
  compute_deltaG_vs_time float_of_decimal header_only_tool
                         "COLVAR" sample_colvar_file "HILLS" two_hills_file
                         sample_args 2
  = SysExit 1 (no_data_message (temp_fes_path 5%float)).
Proof.
  apply (compute_deltaG_vs_time_exits float_of_decimal header_only_tool
           "COLVAR" sample_colvar_file "HILLS" two_hills_file sample_args 2
           sample_colvar_table two_hills_table [] [10%float] 5%float []
           ["#! FIELDS cv file.free
"]).
  - vm_compute. reflexivity.
  - vm_compute. reflexivity.
  - reflexivity.
  - vm_compute. reflexivity.
  - vm_compute. discriminate.
  - vm_compute. reflexivity.
  - vm_compute. reflexivity.
Defined.

Lemma save_data_files_lines_witness :
  exists heights_lines,
    hd_error (save_data_files "analysis" two_hills_conv one_window_series)
    = Some (os_path_join "analysis" "gaussian_heights.dat", heights_lines)
    /\ Z.of_nat (length heights_lines) = 1 + n_gaussians two_hills_conv
    /\ match deltaG one_window_series with
       | [] => tl (save_data_files "analysis" two_hills_conv one_window_series)
               = []
       | _ =>
           exists deltaG_lines,
             tl (save_data_files "analysis" two_hills_conv one_window_series)
             = [(os_path_join "analysis" "deltaG_vs_time.dat", deltaG_lines)]
             /\ length deltaG_lines = S (length (deltaG one_window_series))
       end.
Proof.
  apply (save_data_files_lines float_of_decimal failing_tool "analysis"
           "HILLS" "COLVAR" two_hills_file sample_colvar_file sample_args 2
           two_hills_conv one_window_series).
  - vm_compute. reflexivity.
  - vm_compute. reflexivity.
Defined.

Lemma main_exits_without_data_witness :
  main float_of_decimal failing_tool every_process_succeeds
       (sample_options false None) true comments_only_file [] (Some 0) None
  = Exited 1 (no_data_message (opt_hills (sample_options false None))).
Proof.
  apply (main_exits_without_data float_of_decimal failing_tool
           every_process_succeeds (sample_options false None) true
           comments_only_file [] (Some 0) None).
  vm_compute. reflexivity.
Defined.

Lemma main_bias_statistics_only_witness :
  exists out hills_conv,
    main float_of_decimal failing_tool every_process_succeeds
         (sample_options true None) true sample_hills_file [] None None
    = Completed out
    /\ analyze_hills_convergence
         float_of_decimal (opt_hills (sample_options true None))
         sample_hills_file
       = Ok hills_conv
    /\ map fst (data_files out)
       = [os_path_join (opt_output_dir (sample_options true None))
                       "gaussian_heights.dat"]
    /\ snd (report_file out)
       = save_convergence_report
           hills_conv no_deltaG
           {| temp := opt_temp (sample_options true None);
              biasfactor := opt_biasfactor (sample_options true None);
              kt := PrimFloat.mul kB (opt_temp (sample_options true None)) |}
    /\ length (snd (report_file out)) = 19%nat.
Proof.
  apply (main_bias_statistics_only float_of_decimal failing_tool
           every_process_succeeds (sample_options true None) true
           sample_hills_file [] None None sample_hills_table).
  - vm_compute. reflexivity.
  - left. reflexivity.
Defined.

Lemma main_needs_plumed_witness :
  main float_of_decimal failing_tool every_process_succeeds
       (sample_options false None) true sample_hills_file [] None None
  = Failed FileNotFoundError.
Proof.
  apply (main_needs_plumed float_of_decimal failing_tool
           every_process_succeeds (sample_options false None) true
           sample_hills_file [] None sample_hills_table).
  - vm_compute. reflexivity.
  - reflexivity.
Defined.

Lemma main_block_statistics_witness :
  exists out,
    main float_of_decimal failing_tool every_process_succeeds
         (sample_options true None) true twelve_hills_file [] None None
    = Completed out
    /\ exists stderr,
         block_statistics out
         = Some (7.5%float, stderr, [11.5; 9.5; 7.5; 5.5; 3.5]%float).
Proof.
  destruct (main float_of_decimal failing_tool every_process_succeeds
                 (sample_options true None) true twelve_hills_file [] None
                 None) as [out|code msg|e] eqn:E.
  - exists out. split; [reflexivity|].
    pose proof (main_block_statistics float_of_decimal failing_tool
                  every_process_succeeds (sample_options true None) true
                  twelve_hills_file [] None None out twelve_hills_table E)
      as H.
    destruct H as [stderr [H _]]; [vm_compute; reflexivity|].
    exists stderr. rewrite H. vm_compute. reflexivity.
  - vm_compute in E. discriminate.
  - vm_compute in E. discriminate.
Defined.

Lemma main_exits_with_tracker_witness :
  main float_of_decimal header_only_tool every_process_succeeds
       (sample_options false (Some "COLVAR")) true two_hills_file
       sample_colvar_file (Some 0) None
  = Exited 1 "ERROR: No se encontraron datos en /tmp/fes_block_5.dat".
Proof.
  apply (main_exits_with_tracker float_of_decimal header_only_tool
           every_process_succeeds (sample_options false (Some "COLVAR")) true
           two_hills_file sample_colvar_file None two_hills_table "COLVAR").
  - vm_compute. reflexivity.
  - reflexivity.
  - reflexivity.
  - vm_compute. reflexivity.
Defined.

Lemma main_fails_on_ragged_profile_witness :
  main float_of_decimal failing_tool every_process_succeeds
       (sample_options false None) true sample_hills_file [] (Some 0)
       (Some ragged_file)
  = Failed (Uncaught ValueError).
Proof.
  apply (main_fails_on_ragged_profile float_of_decimal failing_tool
           every_process_succeeds (sample_options false None) true
           sample_hills_file [] ragged_file sample_hills_table).
  - vm_compute. reflexivity.
  - reflexivity.
  - reflexivity.
  - vm_compute. reflexivity.
Defined.
